(** * Merge-gate audit: the evaluator of [transform.py] and the fetch layer of
    [extract.py], embedded as Rocq functions.

    Python dictionaries decoded from JSON are modelled as records whose
    fields say whether the key is absent, holds [null] or holds a string;
    exceptions are an explicit [result]; the standard library's datetime
    parser is an interface ([Datetime]) so that every statement holds for
    whatever ISO-8601 dialect the interpreter accepts. *)

From Stdlib Require Import ZArith List String Ascii Bool Lia Permutation.
From Stdlib Require Import SpecFloat.
Import ListNotations.

Open Scope string_scope.
Open Scope Z_scope.

(** ** Runtime: exceptions and the error monad *)

Inductive exn : Type :=
| ValueError
| TypeError
| OverflowError
| UnboundLocalError
| IndexError
| OSError
| JSONDecodeError
| HTTPError (status : Z).

Inductive result (A : Type) : Type :=
| Ok (a : A)
| Raise (e : exn).

Arguments Ok {A} a.
Arguments Raise {A} e.

Definition bind {A B : Type} (m : result A) (k : A -> result B) : result B :=
  match m with
  | Ok a => k a
  | Raise e => Raise e
  end.

Notation "x <- m ;; k" := (bind m (fun x => k))
  (at level 61, m at next level, right associativity).

(** ** Runtime: the [str] methods the two scripts call

    A character is one of the code points 0 to 255. This is the whole
    alphabet of an HTTP header value, which the client library decodes as
    latin-1, and it holds every character the scripts look for. *)

Module Py.

(** [str.replace(old, new)] for a one-character [old]. *)
Fixpoint replace_char (old : ascii) (new : string) (s : string) : string :=
  match s with
  | EmptyString => EmptyString
  | String c s' =>
      if Ascii.eqb c old then new ++ replace_char old new s'
      else String c (replace_char old new s')
  end.

Definition lower_char (c : ascii) : ascii :=
  let n := nat_of_ascii c in
  if (andb (Nat.leb 65 n) (Nat.leb n 90)) then ascii_of_nat (n + 32) else c.

(** [str.lower()], as far as the letters A to Z go: the other characters
    that have a lower-case form have one outside the ASCII range. *)
Fixpoint lower (s : string) : string :=
  match s with
  | EmptyString => EmptyString
  | String c s' => String (lower_char c) (lower s')
  end.

(** [needle in s]. *)
Fixpoint contains (needle s : string) : bool :=
  if String.prefix needle s then true
  else match s with
       | EmptyString => false
       | String _ s' => contains needle s'
       end.

(** The characters [str.strip()] removes, those for which [str.isspace()]
    holds: the ASCII blanks and separators, the next-line control U+0085 and
    the no-break space U+00A0. *)
Definition is_space (c : ascii) : bool :=
  let n := nat_of_ascii c in
  orb (andb (Nat.leb 9 n) (Nat.leb n 13))
      (orb (andb (Nat.leb 28 n) (Nat.leb n 31))
           (orb (Nat.eqb n 32) (orb (Nat.eqb n 133) (Nat.eqb n 160)))).

(** [str.lstrip(chars)], with the set of characters given as a predicate. *)
Fixpoint lstrip_by (p : ascii -> bool) (s : string) : string :=
  match s with
  | EmptyString => EmptyString
  | String c s' => if p c then lstrip_by p s' else s
  end.

(** [str.rstrip(chars)]. *)
Fixpoint rstrip_by (p : ascii -> bool) (s : string) : string :=
  match s with
  | EmptyString => EmptyString
  | String c s' =>
      match rstrip_by p s' with
      | EmptyString => if p c then EmptyString else String c EmptyString
      | r => String c r
      end
  end.

Definition strip (s : string) : string := rstrip_by is_space (lstrip_by is_space s).

(** [str.split(sep)] for a one-character separator: never an empty list. *)
Fixpoint split (sep : ascii) (s : string) : list string :=
  match s with
  | EmptyString => [EmptyString]
  | String c s' =>
      if Ascii.eqb c sep then EmptyString :: split sep s'
      else match split sep s' with
           | [] => [String c EmptyString]
           | w :: ws => String c w :: ws
           end
  end.

Definition is_digit (c : ascii) : bool :=
  let n := nat_of_ascii c in andb (Nat.leb 48 n) (Nat.leb n 57).

Fixpoint all_chars (p : ascii -> bool) (s : string) : bool :=
  match s with
  | EmptyString => true
  | String c s' => andb (p c) (all_chars p s')
  end.

(** The characters [str.isdigit()] accepts: the decimal digits and the
    superscript digits U+00B2, U+00B3 and U+00B9. *)
Definition is_digit_like (c : ascii) : bool :=
  let n := nat_of_ascii c in
  orb (is_digit c) (orb (Nat.eqb n 178) (orb (Nat.eqb n 179) (Nat.eqb n 185))).

(** [str.isdigit()]: non-empty and made of such characters only. *)
Definition isdigit (s : string) : bool :=
  match s with
  | EmptyString => false
  | _ => all_chars is_digit_like s
  end.

Definition digit_value (c : ascii) : Z := Z.of_nat (nat_of_ascii c) - 48.

Fixpoint int_of_digits_from (acc : Z) (s : string) : Z :=
  match s with
  | EmptyString => acc
  | String c s' => int_of_digits_from (10 * acc + digit_value c) s'
  end.

(** The number a string of decimal digits writes. *)
Definition int_of_digits (s : string) : Z := int_of_digits_from 0 s.

(** [sys.int_info.default_max_str_digits] *)
Definition int_max_str_digits : nat := 4300.

(** [int(s)] for a string that passed [isdigit]: a superscript digit is not
    a decimal digit, and a numeral of more than [int_max_str_digits] digits
    is refused; both raise [ValueError]. *)
Definition int (s : string) : result Z :=
  if andb (all_chars is_digit s) (Nat.leb (String.length s) int_max_str_digits)
  then Ok (int_of_digits s)
  else Raise ValueError.

(** Truthiness of a [str | None] value. *)
Definition truthy (s : option string) : bool :=
  match s with
  | None => false
  | Some EmptyString => false
  | Some _ => true
  end.

(** [a == b] between a [str | None] value and a string literal. *)
Definition eq_lit (a : option string) (lit : string) : bool :=
  match a with
  | Some s => String.eqb s lit
  | None => false
  end.

End Py.

(** ** Decoded JSON: fields of the GitHub payloads *)

(** What a dictionary holds under a key whose value, when present, is a
    string: nothing, [null], or the string. *)
Inductive field : Type :=
| Absent
| Null
| Str (s : string).

(** [d.get(k)] *)
Definition get (f : field) : option string :=
  match f with
  | Str s => Some s
  | _ => None
  end.

(** [d.get(k, default)] *)
Definition get_default (f : field) (default : string) : option string :=
  match f with
  | Absent => Some default
  | Null => None
  | Str s => Some s
  end.

Record User := { login : field }.
Record Branch := { ref : field; sha : field }.

Record PullRequest := {
  number : Z;
  title : field;
  user : option User;
  merged_at : field;
  base : option Branch;
  head : option Branch;
  merge_commit_sha : field
}.

Record Review := { r_state : field; submitted_at : field }.

Record StatusEntry := { context : field; s_state : field; updated_at : field }.

(** [statuses] is [None] when the key is absent or [null]. *)
Record CombinedStatus := { state : field; statuses : option (list StatusEntry) }.

Record CheckRun := { conclusion : field; completed_at : field }.

Record CheckRunsPayload := { check_runs : option (list CheckRun) }.

Record RequiredCheck := { rc_context : field }.

(** The branch-protection payload in its two shapes; a component is [None]
    when the key is absent or is not a list. *)
Record RequiredStatusChecks := {
  contexts : option (list string);
  checks : option (list RequiredCheck)
}.

(** One enriched record of [enriched.json]. [reviews] is [None] when the
    key holds something that is not a list; [required_status_checks] is
    [None] when it is not a dictionary (the lookup was not permitted). *)
Record Item := {
  pr : PullRequest;
  reviews : option (list Review);
  combined_status : option CombinedStatus;
  item_check_runs : option CheckRunsPayload;
  required_status_checks : option RequiredStatusChecks
}.

Record Row := {
  row_number : Z;
  row_title : option string;
  row_author : option string;
  row_base : option string;
  row_head : option string;
  row_merge_commit : option string;
  row_merged_at : option string;
  CR_PASSED : bool;
  CHECKS_PASSED : bool
}.

(** ** The datetime library as an interface *)

(** Instants are microseconds since 1970-01-01T00:00:00Z, the resolution of
    [datetime]. [fromisoformat_utc s] is
    [datetime.fromisoformat(s).astimezone(timezone.utc)] and
    [fromisoformat_wall s] is
    [datetime.fromisoformat(s).replace(tzinfo=timezone.utc)]; both are [None]
    where [fromisoformat] raises [ValueError]. *)
Class Datetime := {
  fromisoformat_utc : string -> option Z;
  fromisoformat_wall : string -> option Z
}.

(** ** transform.py *)

Module Transform.

Section Evaluator.
Context {D : Datetime}.

Definition APPROVED : string := "APPROVED".
Definition SUCCESS_STATES : list string := ["success"].

(** [x in S] for a [str | None] value and a set of string literals. *)
Definition in_set (x : option string) (S : list string) : bool :=
  existsb (Py.eq_lit x) S.

(** [parse_iso]: a falsy argument gives [None]; otherwise the string is
    parsed after [replace("Z", "+00:00")], and a string the parser rejects
    raises [ValueError]. *)
Definition parse_iso (s : option string) : result (option Z) :=
  if Py.truthy s then
    match s with
    | Some str =>
        match fromisoformat_utc (Py.replace_char "Z" "+00:00" str) with
        | Some t => Ok (Some t)
        | None => Raise ValueError
        end
    | None => Ok None
    end
  else Ok None.

(** [a is None or b is None or a <= b] *)
Definition none_or_le (a b : option Z) : bool :=
  match a, b with
  | Some x, Some y => x <=? y
  | _, _ => true
  end.

(** [review_approved_before_merge]: the loop returns at the first approving
    review that passes the timestamp test. *)
Fixpoint review_approved_before_merge (reviews : list Review)
    (merged_at_dt : option Z) : result bool :=
  match reviews with
  | [] => Ok false
  | r :: rest =>
      if Py.eq_lit (get (r_state r)) APPROVED then
        sub <- parse_iso (get (submitted_at r)) ;;
        if none_or_le sub merged_at_dt then Ok true
        else review_approved_before_merge rest merged_at_dt
      else review_approved_before_merge rest merged_at_dt
  end.

(** [list(dict.fromkeys(ctxs))]: the first occurrence of each string, in
    order. *)
Fixpoint dedup_from (seen : list string) (l : list string) : list string :=
  match l with
  | [] => []
  | x :: l' =>
      if existsb (String.eqb x) seen then dedup_from seen l'
      else x :: dedup_from (x :: seen) l'
  end.

Definition dict_fromkeys (l : list string) : list string := dedup_from [] l.

(** The comprehension over [required["checks"]]: the truthy [context]
    values. *)
Fixpoint check_contexts (cs : list RequiredCheck) : list string :=
  match cs with
  | [] => []
  | c :: cs' =>
      match get (rc_context c) with
      | Some s => if Py.truthy (Some s) then s :: check_contexts cs'
                  else check_contexts cs'
      | None => check_contexts cs'
      end
  end.

Definition required_contexts_from_protection
    (required : option RequiredStatusChecks) : list string :=
  let ctxs :=
    match required with
    | Some req =>
        let from_contexts :=
          match contexts req with
          | Some l => filter (fun c => Py.truthy (Some c)) l
          | None => []
          end in
        let from_checks :=
          match checks req with
          | Some l => check_contexts l
          | None => []
          end in
        (from_contexts ++ from_checks)%list
    | None => []
    end in
  dict_fromkeys ctxs.

(** The sort key [s.get("updated_at", "")]. *)
Definition sort_key (s : StatusEntry) : option string := get_default (updated_at s) "".

Definition key_string (s : StatusEntry) : string :=
  match sort_key s with
  | Some k => k
  | None => ""
  end.

(** Insertion into a list sorted newest-first; the inserted entry comes from
    earlier in the original list than everything already there and so goes
    before the entries of equal key. *)
Fixpoint insert_desc (x : StatusEntry) (l : list StatusEntry) : list StatusEntry :=
  match l with
  | [] => [x]
  | y :: l' =>
      if String.ltb (key_string x) (key_string y) then y :: insert_desc x l'
      else x :: l
  end.

(** [candidates.sort(key=..., reverse=True)]: a stable sort in descending
    key order (entries of equal key keep their original order). Comparing a
    [None] key raises [TypeError]; a list of fewer than two entries is not
    compared at all. *)
Definition sort_newest_first (candidates : list StatusEntry)
    : result (list StatusEntry) :=
  match candidates with
  | [] | [_] => Ok candidates
  | _ =>
      if forallb (fun s => match sort_key s with Some _ => true | None => false end)
                 candidates
      then Ok (fold_right insert_desc [] candidates)
      else Raise TypeError
  end.

Definition matching (context_name : string) (sts : list StatusEntry) : list StatusEntry :=
  filter (fun s => Py.eq_lit (get (context s)) context_name) sts.

(** [latest_context_state_before_merge]; an absent [combined_status] is the
    empty dictionary [compute_row] substitutes for it. *)
Definition latest_context_state_before_merge (cs : option CombinedStatus)
    (context_name : string) (merged_at_dt : option Z) : result bool :=
  let sts :=
    match cs with
    | Some c => match statuses c with Some l => l | None => [] end
    | None => []
    end in
  let candidates := matching context_name sts in
  match candidates with
  | [] => Ok false
  | _ =>
      sorted <- sort_newest_first candidates ;;
      match sorted with
      | [] => Raise IndexError
      | latest :: _ =>
          if negb (Py.eq_lit (get (s_state latest)) "success") then Ok false
          else
            up <- parse_iso (get (updated_at latest)) ;;
            Ok (none_or_le up merged_at_dt)
      end
  end.

(** The loop over the runs, leaving at the first run that fails. *)
Fixpoint check_runs_loop (runs : list CheckRun) (merged_at_dt : option Z) : result bool :=
  match runs with
  | [] => Ok true
  | r :: rest =>
      if negb (in_set (get (conclusion r)) ["success"; "neutral"; "skipped"])
      then Ok false
      else
        comp <- parse_iso (get (completed_at r)) ;;
        if negb (none_or_le comp merged_at_dt) then Ok false
        else check_runs_loop rest merged_at_dt
  end.

Definition all_check_runs_passed_before_merge (check_runs_obj : option CheckRunsPayload)
    (merged_at_dt : option Z) : result bool :=
  let runs :=
    match check_runs_obj with
    | Some o => check_runs o
    | None => None
    end in
  match runs with
  | None => Ok true
  | Some [] => Ok true
  | Some rs => check_runs_loop rs merged_at_dt
  end.

(** [all(latest_context_state_before_merge(...) for ctx in required_ctxs)]:
    the generator is consumed up to the first false element. *)
Fixpoint all_required (cs : option CombinedStatus) (ctxs : list string)
    (merged_at_dt : option Z) : result bool :=
  match ctxs with
  | [] => Ok true
  | ctx :: rest =>
      b <- latest_context_state_before_merge cs ctx merged_at_dt ;;
      if b then all_required cs rest merged_at_dt else Ok false
  end.

(** [safe_get(item, "combined_status", "state", default="unknown")] *)
Definition combined_state_of (it : Item) : option string :=
  match combined_status it with
  | Some c => get_default (state c) "unknown"
  | None => Some "unknown"
  end.

(** [pr.get(k, {}).get(k', "")] *)
Definition nested_get {A : Type} (o : option A) (f : A -> field) : option string :=
  match o with
  | Some a => get_default (f a) ""
  | None => Some ""
  end.

Definition compute_row (it : Item) : result Row :=
  let p := pr it in
  let merged_at_v := get_default (merged_at p) "" in
  merged_at_dt <- parse_iso merged_at_v ;;
  let merge_sha :=
    if Py.truthy (get (merge_commit_sha p)) then get (merge_commit_sha p)
    else nested_get (head p) sha in
  let revs := match reviews it with Some l => l | None => [] end in
  cr_passed <- review_approved_before_merge revs merged_at_dt ;;
  let required_ctxs := required_contexts_from_protection (required_status_checks it) in
  let combined_ok := in_set (combined_state_of it) SUCCESS_STATES in
  runs_ok <- all_check_runs_passed_before_merge (item_check_runs it) merged_at_dt ;;
  checks_passed <-
    match required_ctxs with
    | _ :: _ => all_required (combined_status it) required_ctxs merged_at_dt
    | [] => Ok (andb combined_ok runs_ok)
    end ;;
  Ok {| row_number := number p;
        row_title := get_default (title p) "";
        row_author := nested_get (user p) login;
        row_base := nested_get (base p) ref;
        row_head := nested_get (head p) ref;
        row_merge_commit := merge_sha;
        row_merged_at := merged_at_v;
        CR_PASSED := cr_passed;
        CHECKS_PASSED := checks_passed |}.

End Evaluator.

End Transform.

(** ** extract.py *)

Module Extract.

Definition API : string := "https://api.github.com".

(** *** Calendar arithmetic behind [strftime] *)

(** The proleptic Gregorian date of a day count from 1970-01-01, by
    400-year eras of 146097 days whose years start on 1 March. *)
Definition civil_from_days (days : Z) : Z * Z * Z :=
  let z := days + 719468 in
  let era := z / 146097 in
  let doe := z mod 146097 in
  let yoe := (doe - doe / 1460 + doe / 36524 - doe / 146096) / 365 in
  let doy := doe - (365 * yoe + yoe / 4 - yoe / 100) in
  let mp := (5 * doy + 2) / 153 in
  let d := doy - (153 * mp + 2) / 5 + 1 in
  let m := if mp <? 10 then mp + 3 else mp - 9 in
  let y := yoe + era * 400 + (if m <=? 2 then 1 else 0) in
  (y, m, d).

Definition digit_char (d : Z) : ascii := ascii_of_nat (48 + Z.to_nat (d mod 10)).

(** [%02d] and [%04d] of a number that fits the width. *)
Definition pad2 (n : Z) : string :=
  String (digit_char (n / 10)) (String (digit_char n) EmptyString).

Definition pad4 (n : Z) : string :=
  String (digit_char (n / 1000)) (String (digit_char (n / 100)) (pad2 n)).

Definition microseconds_per_second : Z := 1000000.
Definition seconds_per_day : Z := 86400.

(** [timedelta(days=n)] *)
Definition timedelta_days (n : Z) : Z := n * seconds_per_day * microseconds_per_second.

(** [_to_utc_iso]: [strftime("%Y-%m-%dT%H:%M:%SZ")] of an instant already in
    UTC; the microseconds are dropped. *)
Definition _to_utc_iso (dt : Z) : string :=
  let secs := dt / microseconds_per_second in
  let '(y, m, d) := civil_from_days (secs / seconds_per_day) in
  let sod := secs mod seconds_per_day in
  pad4 y ++ "-" ++ pad2 m ++ "-" ++ pad2 d ++ "T"
    ++ pad2 (sod / 3600) ++ ":" ++ pad2 (sod mod 3600 / 60) ++ ":" ++ pad2 (sod mod 60)
    ++ "Z".


(** 1000-01-01T00:00:00Z and 10000-01-01T00:00:00Z: the instants between
    them have the four-digit years [strftime] prints alike everywhere. *)
Definition year_1000 : Z := -354285 * seconds_per_day * microseconds_per_second.
Definition year_10000 : Z := 2932897 * seconds_per_day * microseconds_per_second.

Section Window.
Context {D : Datetime}.

(** [_parse_iso], the same function as [transform.parse_iso]. *)
Definition _parse_iso (s : option string) : result (option Z) :=
  if Py.truthy s then
    match s with
    | Some str =>
        match fromisoformat_utc (Py.replace_char "Z" "+00:00" str) with
        | Some t => Ok (Some t)
        | None => Raise ValueError
        end
    | None => Ok None
    end
  else Ok None.

(** [datetime.fromisoformat(bound).replace(tzinfo=timezone.utc)] *)
Definition parse_bound (bound : string) : result Z :=
  match fromisoformat_wall bound with
  | Some t => Ok t
  | None => Raise ValueError
  end.

(** [normalize_window], with the reading of [datetime.now(timezone.utc)]
    passed in. *)
Definition normalize_window (since until : option string) (now : Z)
    : result (string * string) :=
  s_dt <- (match since with
           | Some s => if Py.truthy since then parse_bound s
                       else Ok (now - timedelta_days 365)
           | None => Ok (now - timedelta_days 365)
           end) ;;
  u_dt <- (match until with
           | Some u => if Py.truthy until then parse_bound u else Ok now
           | None => Ok now
           end) ;;
  Ok (_to_utc_iso s_dt, _to_utc_iso u_dt).




(** The window [main] filters with: the two normalised strings parsed
    back into instants. *)
Definition window_of (since until : option string) (now : Z)
    : result (option Z * option Z) :=
  w <- normalize_window since until now ;;
  since_dt <- _parse_iso (Some (fst w)) ;;
  until_dt <- _parse_iso (Some (snd w)) ;;
  Ok (since_dt, until_dt).

End Window.

(** *** The HTTP client *)

Record Response := {
  status_code : Z;
  text : string;
  x_ratelimit_reset : option string;   (* headers.get("X-RateLimit-Reset") *)
  link : option string;                (* headers.get("Link") *)
  json : option (list PullRequest)     (* None: the body is not JSON *)
}.

(** [Response.ok]: [raise_for_status] raises for 4xx and 5xx. *)
Definition ok (resp : Response) : bool :=
  negb (andb (400 <=? status_code resp) (status_code resp <? 600)).

Definition raise_for_status (resp : Response) : result unit :=
  if ok resp then Ok tt else Raise (HTTPError (status_code resp)).

(** The retry settings of a [GitHubHTTP] object; [backoff] is a binary64
    float. *)
Record GitHubHTTP := { max_retries : nat; backoff : spec_float }.

Definition prec : Z := 53.
Definition emax : Z := 1024.

(** 1.2 as a double: 0x1.3333333333333p+0 *)
Definition float_1_2 : spec_float := S754_finite false 5404319552844595 (-52).

(** The defaults of [GitHubHTTP.__init__]. *)
Definition default_http : GitHubHTTP := {| max_retries := 3; backoff := float_1_2 |}.

(** [float(n)]: round to nearest even; too large an integer raises. *)
Definition float_of_int (n : Z) : result spec_float :=
  match binary_normalize prec emax n 0 false with
  | S754_infinity _ => Raise OverflowError
  | x => Ok x
  end.

(** [int(x)]: truncation toward zero. *)
Definition int_of_float (x : spec_float) : result Z :=
  match x with
  | S754_zero _ => Ok 0
  | S754_finite s m e =>
      let mag := if 0 <=? e then Zpos m * 2 ^ e else Zpos m / 2 ^ (- e) in
      Ok (if s then - mag else mag)
  | S754_infinity _ => Raise OverflowError
  | S754_nan => Raise ValueError
  end.

Definition fmul : spec_float -> spec_float -> spec_float := SFmul prec emax.

(** [int((attempt+1)*self.backoff)] *)
Definition hard_failure_wait (http : GitHubHTTP) (attempt : nat) : result Z :=
  n <- float_of_int (Z.of_nat attempt + 1) ;;
  int_of_float (fmul n (backoff http)).

(** [int((attempt+1)*self.backoff*5)] *)
Definition fallback_wait (http : GitHubHTTP) (attempt : nat) : result Z :=
  n <- float_of_int (Z.of_nat attempt + 1) ;;
  five <- float_of_int 5 ;;
  int_of_float (fmul (fmul n (backoff http)) five).

(** The wait after a rate-limited response; [now] is [int(time.time())]. *)
Definition rate_limit_wait (http : GitHubHTTP) (attempt : nat)
    (reset : option string) (now : Z) : result Z :=
  match reset with
  | Some r =>
      if andb (Py.truthy reset) (Py.isdigit r)
      then n <- Py.int r ;; Ok (Z.max 0 (n - now + 1))
      else fallback_wait http attempt
  | None => fallback_wait http attempt
  end.

(** [resp.status_code == 403 and "rate limit" in (resp.text or "").lower()] *)
Definition rate_limited (resp : Response) : bool :=
  andb (status_code resp =? 403) (Py.contains "rate limit" (Py.lower (text resp))).

(** What one call of [get] does to the outside world, in order. *)
Inductive event : Type :=
| Sent (attempt : nat)
| Slept (seconds : Z).

(** A computation that leaves a trace and may raise. *)
Definition io (A : Type) : Type := list event * result A.

Definition ret {A : Type} (a : A) : io A := ([], Ok a).

Definition lift {A : Type} (r : result A) : io A := ([], r).

Definition io_bind {A B : Type} (m : io A) (k : A -> io B) : io B :=
  match snd m with
  | Ok a => ((fst m ++ fst (k a))%list, snd (k a))
  | Raise e => (fst m, Raise e)
  end.

Notation "x <~ m ;; k" := (io_bind m (fun x => k))
  (at level 61, m at next level, right associativity).

(** The greatest whole number of seconds [time.sleep] takes: the
    interpreter keeps the length as a signed 64-bit count of nanoseconds. *)
Definition sleep_max : Z := 9223372036.

(** [time.sleep(w)] for an integer [w]. A length that does not fit the
    nanosecond count raises [OverflowError] and a negative one that fits
    [ValueError]. Otherwise the operating system is asked to suspend the
    process, and [OSError] is raised when it refuses; [granted] is its
    answer to a request of the given length. *)
Definition time_sleep (granted : Z -> bool) (w : Z) : io unit :=
  if orb (w <? - sleep_max) (sleep_max <? w) then lift (Raise OverflowError)
  else if w <? 0 then lift (Raise ValueError)
  else if granted w then ([Slept w], Ok tt)
  else lift (Raise OSError).

(** [self.sess.get(url, params=params)]: the server's answer to the request
    sent in the given attempt. *)
Definition send (server : nat -> Response) (attempt : nat) : io Response :=
  ([Sent attempt], Ok (server attempt)).

(** The body of [for attempt in range(self.max_retries)], started at
    [attempt] with [remaining] iterations to go; [last] is the binding of
    [resp] on entry. When the range is used up, [resp.raise_for_status()]
    runs and the function falls off its end, returning [None]. *)
Fixpoint get_loop (http : GitHubHTTP) (server : nat -> Response) (clock : nat -> Z)
    (os : nat -> Z -> bool)
    (remaining attempt : nat) (last : option Response) : io (option Response) :=
  match remaining with
  | O =>
      match last with
      | None => lift (Raise UnboundLocalError)
      | Some resp => _ <~ lift (raise_for_status resp) ;; ret None
      end
  | S remaining' =>
      resp <~ send server attempt ;;
      if rate_limited resp then
        wait_s <~ lift (rate_limit_wait http attempt (x_ratelimit_reset resp)
                          (clock attempt)) ;;
        _ <~ time_sleep (os attempt) wait_s ;;
        get_loop http server clock os remaining' (S attempt) (Some resp)
      else if ok resp then ret (Some resp)
      else
        w <~ lift (hard_failure_wait http attempt) ;;
        _ <~ time_sleep (os attempt) w ;;
        get_loop http server clock os remaining' (S attempt) (Some resp)
  end.

(** [GitHubHTTP.get]. The world outside is given by three functions:
    [server n] is the response to the request of attempt [n] of this call,
    [clock n] the reading of [int(time.time())] taken while handling it, and
    [os n w] tells whether the operating system grants the sleep of [w]
    seconds asked for in that attempt. *)
Definition http_get (http : GitHubHTTP) (server : nat -> Response) (clock : nat -> Z)
    (os : nat -> Z -> bool) : io (option Response) :=
  get_loop http server clock os (max_retries http) 0%nat None.

(** *** Vocabulary for the retry loop *)

(** The wait the loop computes after the response to attempt [a], which was
    not returned: the rate-limit wait or the hard-failure backoff. *)
Definition wait_after (http : GitHubHTTP) (server : nat -> Response) (clock : nat -> Z)
    (a : nat) : result Z :=
  if rate_limited (server a)
  then rate_limit_wait http a (x_ratelimit_reset (server a)) (clock a)
  else hard_failure_wait http a.

Definition wait_value (http : GitHubHTTP) (server : nat -> Response) (clock : nat -> Z)
    (a : nat) : Z :=
  match wait_after http server clock a with
  | Ok w => w
  | Raise _ => 0
  end.

(** What [get] does once the range is used up: [raise_for_status] on the
    last response, if there is one. *)
Definition exhausted (last : option Response) : result (option Response) :=
  match last with
  | None => Raise UnboundLocalError
  | Some resp => if ok resp then Ok None else Raise (HTTPError (status_code resp))
  end.

(** A length [time.sleep] takes and the operating system grants. *)
Definition sleepable (granted : Z -> bool) (w : Z) : bool :=
  andb (andb (0 <=? w) (w <=? sleep_max)) (granted w).

(** How the wait after attempt [a] ends: with the seconds slept, or with the
    exception raised while the wait was computed or by [time.sleep]. *)
Definition wait_outcome (http : GitHubHTTP) (server : nat -> Response) (clock : nat -> Z)
    (os : nat -> Z -> bool) (a : nat) : result Z :=
  w <- wait_after http server clock a ;;
  _ <- snd (time_sleep (os a) w) ;;
  Ok w.

(** The wait after attempt [a] is computed and slept without an exception. *)
Definition wait_fine (http : GitHubHTTP) (server : nat -> Response) (clock : nat -> Z)
    (os : nat -> Z -> bool) (a : nat) : Prop :=
  exists w, wait_after http server clock a = Ok w /\ sleepable (os a) w = true.

(** No wait of the first [max_retries] attempts raises, in its arithmetic
    or in [time.sleep]. *)
Definition sleeps_fine (http : GitHubHTTP) (server : nat -> Response) (clock : nat -> Z)
    (os : nat -> Z -> bool) : bool :=
  forallb (fun a => match wait_after http server clock a with
                    | Ok w => sleepable (os a) w
                    | Raise _ => false
                    end)
          (seq 0 (max_retries http)).


(** The trace of [n] failed attempts starting at attempt [from]: each request
    is followed by its sleep. *)
Definition retry_trace (http : GitHubHTTP) (server : nat -> Response) (clock : nat -> Z)
    (from n : nat) : list event :=
  flat_map (fun a => [Sent a; Slept (wait_value http server clock a)]) (seq from n).


(** *** Pagination *)

(** The literal [rel="next"], with its two quotation marks (character 34). *)
Definition rel_next : string := "rel=" ++ String "034" ("next" ++ String "034" "").

Definition is_lt (c : ascii) : bool := Ascii.eqb c "<".
Definition is_gt (c : ascii) : bool := Ascii.eqb c ">".

(** The loop of [parse_next_link] over [link_header.split(",")]. *)
Fixpoint scan_parts (parts : list string) : option string :=
  match parts with
  | [] => None
  | part :: rest =>
      let segs := map Py.strip (Py.split ";" part) in
      match segs with
      | seg0 :: seg1 :: _ =>
          if String.eqb seg1 rel_next
          then Some (Py.rstrip_by is_gt (Py.lstrip_by is_lt seg0))
          else scan_parts rest
      | _ => scan_parts rest
      end
  end.

Definition parse_next_link (link_header : option string) : option string :=
  match link_header with
  | Some h => if Py.truthy link_header then scan_parts (Py.split "," h) else None
  | None => None
  end.

(** *** Link headers as the server writes them *)

(** An entry [<target>; rel="relation"] of a Link header. *)
Record LinkEntry := { target : string; relation : string }.

Definition render_entry (e : LinkEntry) : string :=
  "<" ++ target e ++ ">; rel=" ++ String "034" (relation e ++ String "034" "").

Definition render_link (es : list LinkEntry) : string :=
  String.concat ", " (map render_entry es).

(** The two segments of a rendered entry, once split at the semicolon and
    stripped. *)
Definition segment0 (e : LinkEntry) : string := String "<" (target e ++ String ">" "").

Definition segment1 (e : LinkEntry) : string :=
  "rel=" ++ String "034" (relation e ++ String "034" "").

Definition is_comma (c : ascii) : bool := Ascii.eqb c ",".
Definition is_semicolon (c : ascii) : bool := Ascii.eqb c ";".

Definition url_char (c : ascii) : bool :=
  negb (orb (orb (is_comma c) (is_semicolon c)) (orb (is_lt c) (is_gt c))).

Definition token_char (c : ascii) : bool := negb (orb (is_comma c) (is_semicolon c)).

(** A non-empty target free of the header's delimiters, and a relation free
    of the two separators. *)
Definition entry_ok (e : LinkEntry) : bool :=
  andb (negb (String.eqb (target e) ""))
       (andb (Py.all_chars url_char (target e)) (Py.all_chars token_char (relation e))).

(** The first entry whose relation equals [next]. *)
Definition next_entry (es : list LinkEntry) : option LinkEntry :=
  find (fun e => String.eqb (relation e) "next") es.

(** The response carries the entries [es] in its Link header; a response
    without the header carries none. *)
Definition has_links (resp : Response) (es : list LinkEntry) : Prop :=
  forallb entry_ok es = true /\
  (link resp = Some (render_link es) \/ (es = [] /\ link resp = None)).

(** The query parameters of the first request. *)
Record Params := {
  p_state : string;
  p_per_page : Z;
  p_sort : string;
  p_direction : string
}.

Definition closed_pr_params (per_page : Z) : Params :=
  {| p_state := "closed"; p_per_page := per_page;
     p_sort := "updated"; p_direction := "desc" |}.

(** [f"{API}/repos/{owner}/{repo}/pulls"] *)
Definition pulls_url (owner repo : string) : string :=
  API ++ "/repos/" ++ owner ++ "/" ++ repo ++ "/pulls".

(** The generator object of [list_closed_pr_pages]: not yet started,
    suspended at its [yield] with [page_idx] and [resp] live, or finished. *)
Inductive generator : Type :=
| Created (url : string) (params : Params)
| Suspended (params : Params) (page_idx : Z) (resp : Response)
| Finished.

(** What the caller of [next()] observes. *)
Inductive outcome : Type :=
| Yielded (page_idx : Z) (payload : list PullRequest)
| StopIteration
| Raised (e : exn).

(** A call [http.get(url, params)] made by the generator. *)
Record request := { req_url : string; req_params : option Params }.

Section Paginator.
(** The client the generator is given: what [http.get] answers. *)
Variable fetch : request -> result Response.

(** One turn of [while url:] from its test to the [yield]. *)
Definition loop_turn (url : option string) (params : Params) (page_idx : Z)
    : list request * outcome * generator :=
  match url with
  | Some u =>
      if Py.truthy url then
        let rq := {| req_url := u;
                     req_params := if page_idx =? 1 then Some params else None |} in
        match fetch rq with
        | Ok resp =>
            match json resp with
            | Some payload =>
                ([rq], Yielded page_idx payload, Suspended params page_idx resp)
            | None => ([rq], Raised JSONDecodeError, Finished)
            end
        | Raise e => ([rq], Raised e, Finished)
        end
      else ([], StopIteration, Finished)
  | None => ([], StopIteration, Finished)
  end.

(** [next(gen)]: run the generator to its next [yield]. Resuming after a
    [yield] first rebinds [url] from the Link header and increments
    [page_idx]; only the first page is requested with [params]. *)
Definition next (g : generator) : list request * outcome * generator :=
  match g with
  | Created url params => loop_turn (Some url) params 1
  | Suspended params page_idx resp =>
      loop_turn (parse_next_link (link resp)) params (page_idx + 1)
  | Finished => ([], StopIteration, Finished)
  end.

(** What a consumer sees, in order: a request going out, a page coming in. *)
Inductive pstep : Type :=
| Fetch (rq : request)
| Page (page_idx : Z) (payload : list PullRequest)
| Error (e : exn).

(** A [for] loop over the generator, observed for at most [fuel] calls of
    [next]; the flag tells whether the generator finished. *)
Fixpoint consume (fuel : nat) (g : generator) : list pstep * bool :=
  match fuel with
  | O => ([], false)
  | S fuel' =>
      match next g with
      | (rqs, Yielded i payload, g') =>
          let '(tr, fin) := consume fuel' g' in
          ((map Fetch rqs ++ Page i payload :: tr)%list, fin)
      | (rqs, StopIteration, _) => (map Fetch rqs, true)
      | (rqs, Raised e, _) => ((map Fetch rqs ++ [Error e])%list, true)
      end
  end.

Definition list_closed_pr_pages (owner repo : string) (per_page : Z) : generator :=
  Created (pulls_url owner repo) (closed_pr_params per_page).

End Paginator.

End Extract.

(** ** An instance of the datetime interface

    The dialect GitHub emits and the command line documents:
    [YYYY-MM-DD], optionally followed by [THH:MM:SS] and then by [+00:00],
    read on a machine whose local zone is UTC. It is used to run the
    functions on concrete payloads. *)

Module Iso8601.

Definition days_from_civil (y m d : Z) : Z :=
  let y' := if m <=? 2 then y - 1 else y in
  let era := y' / 400 in
  let yoe := y' mod 400 in
  let mp := if 2 <? m then m - 3 else m + 9 in
  let doy := (153 * mp + 2) / 5 + d - 1 in
  let doe := yoe * 365 + yoe / 4 - yoe / 100 + doy in
  era * 146097 + doe - 719468.

Definition is_leap (y : Z) : bool :=
  andb (y mod 4 =? 0) (orb (negb (y mod 100 =? 0)) (y mod 400 =? 0)).

Definition days_in_month (y m : Z) : Z :=
  if m =? 2 then (if is_leap y then 29 else 28)
  else if orb (orb (m =? 4) (m =? 6)) (orb (m =? 9) (m =? 11)) then 30
  else 31.

Definition num2 (a b : ascii) : option Z :=
  if andb (Py.is_digit a) (Py.is_digit b)
  then Some (10 * Py.digit_value a + Py.digit_value b)
  else None.

(** The date at the head of the string, as a day count, and what follows. *)
Definition read_date (s : string) : option (Z * string) :=
  match s with
  | String y1 (String y2 (String y3 (String y4 (String "-"
      (String m1 (String m2 (String "-" (String d1 (String d2 rest))))))))) =>
      match num2 y1 y2, num2 y3 y4, num2 m1 m2, num2 d1 d2 with
      | Some yh, Some yl, Some m, Some d =>
          let y := 100 * yh + yl in
          if andb (andb (1 <=? y) (andb (1 <=? m) (m <=? 12)))
                  (andb (1 <=? d) (d <=? days_in_month y m))
          then Some (days_from_civil y m d, rest)
          else None
      | _, _, _, _ => None
      end
  | _ => None
  end.

(** The time of day, in seconds, and what follows. *)
Definition read_time (s : string) : option (Z * string) :=
  match s with
  | String "T" (String h1 (String h2 (String ":"
      (String n1 (String n2 (String ":" (String s1 (String s2 rest)))))))) =>
      match num2 h1 h2, num2 n1 n2, num2 s1 s2 with
      | Some h, Some n, Some sec =>
          if andb (h <? 24) (andb (n <? 60) (sec <? 60))
          then Some (h * 3600 + n * 60 + sec, rest)
          else None
      | _, _, _ => None
      end
  | _ => None
  end.

Definition read (s : string) : option Z :=
  match read_date s with
  | Some (days, rest) =>
      let at_seconds secs := Some ((days * 86400 + secs) * 1000000) in
      if String.eqb rest "" then at_seconds 0
      else match read_time rest with
           | Some (secs, rest') =>
               if orb (String.eqb rest' "") (String.eqb rest' "+00:00")
               then at_seconds secs
               else None
           | None => None
           end
  | None => None
  end.

#[export] Instance datetime : Datetime :=
  {| fromisoformat_utc := read; fromisoformat_wall := read |}.

End Iso8601.

(** ** Timestamps and well-formed payloads, as the data model has them

    A timestamp is written in ISO 8601, the suffix [Z] standing for the
    offset [+00:00], and denotes an instant. A timestamp field whose key is
    absent, or which holds [null] or the empty string, is a missing
    timestamp. A field is well formed when it is missing or holds a
    timestamp; a status entry moreover carries no [null] under
    [updated_at], which the sort could not compare. None of this refers to
    the functions of the two scripts. *)

Section WellFormed.
Context {D : Datetime}.

(** The instant an ISO-8601 string denotes, if it is one. *)
Definition iso_instant (s : string) : option Z :=
  fromisoformat_utc (Py.replace_char "Z" "+00:00" s).

(** The instant a timestamp field denotes; [None] for a missing
    timestamp. *)
Definition instant_of (f : field) : option Z :=
  match f with
  | Str (String c s) => iso_instant (String c s)
  | _ => None
  end.

Definition timestamp_ok (f : field) : bool :=
  match f with
  | Str (String c s) =>
      match iso_instant (String c s) with
      | Some _ => true
      | None => false
      end
  | _ => true
  end.

Definition status_ok (s : StatusEntry) : bool :=
  andb (timestamp_ok (updated_at s))
       (match updated_at s with Null => false | _ => true end).

Definition reviews_of (it : Item) : list Review :=
  match reviews it with Some l => l | None => [] end.

Definition statuses_in (cs : option CombinedStatus) : list StatusEntry :=
  match cs with
  | Some c => match statuses c with Some l => l | None => [] end
  | None => []
  end.

Definition statuses_of (it : Item) : list StatusEntry := statuses_in (combined_status it).

Definition runs_of (it : Item) : list CheckRun :=
  match item_check_runs it with
  | Some o => match check_runs o with Some l => l | None => [] end
  | None => []
  end.

Definition well_formed (it : Item) : bool :=
  andb (timestamp_ok (merged_at (pr it)))
    (andb (forallb (fun r => timestamp_ok (submitted_at r)) (reviews_of it))
      (andb (forallb status_ok (statuses_of it))
            (forallb (fun r => timestamp_ok (completed_at r)) (runs_of it)))).

End WellFormed.

(** ** The gate rules as predicates on single entries *)

Section Rules.
Context {D : Datetime}.

(** The timing rule of the gate: an event is held against a merge only when
    both instants are known and the event is later than the merge. *)
Definition not_after (event merged : option Z) : bool :=
  match event, merged with
  | Some t, Some m => t <=? m
  | _, _ => true
  end.

(** A review that lets the code review pass for a merge at [merged]. *)
Definition approves (merged : option Z) (r : Review) : bool :=
  andb (Py.eq_lit (get (r_state r)) "APPROVED")
       (not_after (instant_of (submitted_at r)) merged).

(** A status entry that lets its context pass. *)
Definition entry_passes (merged : option Z) (s : StatusEntry) : bool :=
  andb (Py.eq_lit (get (s_state s)) "success")
       (not_after (instant_of (updated_at s)) merged).

(** A check run that does not fail the fallback path. *)
Definition run_passes (merged : option Z) (r : CheckRun) : bool :=
  andb (orb (Py.eq_lit (get (conclusion r)) "success")
            (orb (Py.eq_lit (get (conclusion r)) "neutral")
                 (Py.eq_lit (get (conclusion r)) "skipped")))
       (not_after (instant_of (completed_at r)) merged).

(** The status entries reported for a context name, in the order of the
    list. *)
Definition entries_of (context_name : string) (sts : list StatusEntry)
    : list StatusEntry :=
  filter (fun s => match context s with
                   | Str c => String.eqb c context_name
                   | _ => false
                   end) sts.

(** The updated-at string entries are ordered by; an entry without one is
    ordered as the empty string. *)
Definition updated_key (s : StatusEntry) : string :=
  match updated_at s with
  | Str k => k
  | _ => ""
  end.

(** The entry at the head of the candidates once sorted newest-first. *)
Definition selected (context_name : string) (sts : list StatusEntry) : option StatusEntry :=
  match fold_right Transform.insert_desc [] (Transform.matching context_name sts) with
  | [] => None
  | latest :: _ => Some latest
  end.

Definition context_passes (merged : option Z) (sts : list StatusEntry)
    (context_name : string) : bool :=
  match selected context_name sts with
  | Some latest => entry_passes merged latest
  | None => false
  end.

(** The combined status reports success at its top level. *)
Definition combined_success (it : Item) : bool :=
  match combined_status it with
  | Some c => Py.eq_lit (get (state c)) "success"
  | None => false
  end.

(** The two verdicts [compute_row] writes for a well-formed record. *)
Definition cr_verdict (it : Item) : bool :=
  existsb (approves (instant_of (merged_at (pr it)))) (reviews_of it).

Definition checks_verdict (it : Item) : bool :=
  let merged := instant_of (merged_at (pr it)) in
  match Transform.required_contexts_from_protection (required_status_checks it) with
  | [] => andb (combined_success it) (forallb (run_passes merged) (runs_of it))
  | ctxs => forallb (context_passes merged (statuses_of it)) ctxs
  end.

End Rules.

(** ** Sample payloads *)

Module Sample.

Definition pr42 : PullRequest :=
  {| number := 42; title := Str "Add audit"; user := Some {| login := Str "kerry" |};
     merged_at := Str "2025-01-10T12:00:00Z";
     base := Some {| ref := Str "main"; sha := Absent |};
     head := Some {| ref := Str "feature"; sha := Str "abc123" |};
     merge_commit_sha := Str "def456" |}.

Definition approval : Review :=
  {| r_state := Str "APPROVED"; submitted_at := Str "2025-01-10T11:00:00Z" |}.

Definition comment : Review :=
  {| r_state := Str "COMMENTED"; submitted_at := Str "2025-01-10T10:00:00Z" |}.

Definition late_approval : Review :=
  {| r_state := Str "APPROVED"; submitted_at := Str "2025-01-10T13:00:00Z" |}.

Definition build_ok : StatusEntry :=
  {| context := Str "ci/build"; s_state := Str "success";
     updated_at := Str "2025-01-10T11:55:00Z" |}.

Definition build_failed : StatusEntry :=
  {| context := Str "ci/build"; s_state := Str "failure";
     updated_at := Str "2025-01-10T11:55:00Z" |}.

Definition build_early : StatusEntry :=
  {| context := Str "ci/build"; s_state := Str "failure";
     updated_at := Str "2025-01-10T09:00:00Z" |}.

Definition lint_ok : StatusEntry :=
  {| context := Str "ci/lint"; s_state := Str "success";
     updated_at := Str "2025-01-10T11:30:00Z" |}.

Definition run_ok : CheckRun :=
  {| conclusion := Str "success"; completed_at := Str "2025-01-10T11:50:00Z" |}.

Definition run_failed : CheckRun :=
  {| conclusion := Str "failure"; completed_at := Str "2025-01-10T11:50:00Z" |}.

Definition requires (l : list string) : option RequiredStatusChecks :=
  Some {| contexts := Some l; checks := None |}.

(** The first end-to-end scenario: one approval, one required context whose
    only status is a success before the merge. *)
Definition strict_item : Item :=
  {| pr := pr42;
     reviews := Some [comment; approval];
     combined_status := Some {| state := Str "success"; statuses := Some [build_ok] |};
     item_check_runs := Some {| check_runs := Some [run_ok] |};
     required_status_checks := requires ["ci/build"] |}.

(** The same record with other check runs and another aggregate state. *)
Definition strict_item' : Item :=
  {| pr := pr42;
     reviews := Some [comment; approval];
     combined_status := Some {| state := Str "failure"; statuses := Some [build_ok] |};
     item_check_runs := Some {| check_runs := Some [run_failed] |};
     required_status_checks := requires ["ci/build"] |}.

(** A record whose second required context has no status entry. *)
Definition missing_context_item : Item :=
  {| pr := pr42;
     reviews := Some [approval];
     combined_status := Some {| state := Str "success"; statuses := Some [build_ok] |};
     item_check_runs := None;
     required_status_checks := requires ["ci/build"; "ci/test"] |}.

(** The third scenario: no reviews, required contexts not visible, combined
    state success, no check runs. *)
Definition fallback_item : Item :=
  {| pr := pr42;
     reviews := Some [];
     combined_status := Some {| state := Str "success"; statuses := Some [] |};
     item_check_runs := Some {| check_runs := Some [] |};
     required_status_checks := None |}.

(** The first scenario with the approval given an hour after the merge. *)
Definition late_review_item : Item :=
  {| pr := pr42;
     reviews := Some [comment; late_approval];
     combined_status := Some {| state := Str "success"; statuses := Some [build_ok] |};
     item_check_runs := Some {| check_runs := Some [run_ok] |};
     required_status_checks := requires ["ci/build"] |}.

Definition build_late : StatusEntry :=
  {| context := Str "ci/build"; s_state := Str "success";
     updated_at := Str "2025-01-10T12:30:00Z" |}.

(** A failure before the merge followed by a success half an hour after
    it. *)
Definition fixed_late : option CombinedStatus :=
  Some {| state := Str "success"; statuses := Some [build_early; lint_ok; build_late] |}.

Definition run_late : CheckRun :=
  {| conclusion := Str "success"; completed_at := Str "2025-01-10T12:30:00Z" |}.

(** The third scenario with two successful check runs, the second completed
    half an hour after the merge. *)
Definition fallback_late_item : Item :=
  {| pr := pr42;
     reviews := Some [];
     combined_status := Some {| state := Str "success"; statuses := Some [] |};
     item_check_runs := Some {| check_runs := Some [run_ok; run_late] |};
     required_status_checks := None |}.

(** Two statuses of one context with the same [updated_at]: the failure is
    listed first. *)
Definition tied : option CombinedStatus :=
  Some {| state := Str "failure"; statuses := Some [build_failed; build_ok] |}.


Definition page (body : list PullRequest) (link_header : option string) : Extract.Response :=
  {| Extract.status_code := 200; Extract.text := "[]";
     Extract.x_ratelimit_reset := None; Extract.link := link_header;
     Extract.json := Some body |}.

Definition rate_limit_403 (reset : option string) : Extract.Response :=
  {| Extract.status_code := 403; Extract.text := "API rate limit exceeded for user";
     Extract.x_ratelimit_reset := reset; Extract.link := None; Extract.json := None |}.

Definition server_error : Extract.Response :=
  {| Extract.status_code := 502; Extract.text := "Bad Gateway";
     Extract.x_ratelimit_reset := None; Extract.link := None; Extract.json := None |}.

(** A server that fails once, is rate limited once with a reset five
    seconds ahead, then answers. *)
Definition recovering (n : nat) : Extract.Response :=
  match n with
  | O => server_error
  | S O => rate_limit_403 (Some "1736510405")
  | _ => page [] None
  end.

(** A server that is rate limited three times, without a reset header, and
    answers the fourth request. *)
Definition throttled (n : nat) : Extract.Response :=
  match n with
  | O | S O | S (S O) => rate_limit_403 None
  | _ => page [] None
  end.

Definition at_noon (_ : nat) : Z := 1736510400.

(** An operating system that grants every sleep it is asked for. *)
Definition willing (_ : nat) (_ : Z) : bool := true.


Definition page2_url : string := "https://api.github.com/repositories/1/pulls?page=2".
Definition page3_url : string := "https://api.github.com/repositories/1/pulls?page=3".

Definition links_of_page1 : list Extract.LinkEntry :=
  [ {| Extract.target := page2_url; Extract.relation := "next" |};
    {| Extract.target := page3_url; Extract.relation := "last" |} ].

Definition links_of_page2 : list Extract.LinkEntry :=
  [ {| Extract.target := Extract.pulls_url "octo" "repo"; Extract.relation := "prev" |};
    {| Extract.target := page3_url; Extract.relation := "next" |};
    {| Extract.target := page3_url; Extract.relation := "last" |} ].

Definition links_of_page3 : list Extract.LinkEntry :=
  [ {| Extract.target := page2_url; Extract.relation := "prev" |};
    {| Extract.target := Extract.pulls_url "octo" "repo"; Extract.relation := "first" |} ].

Definition page1 : Extract.Response :=
  page [pr42] (Some (Extract.render_link links_of_page1)).
Definition page2 : Extract.Response :=
  page [] (Some (Extract.render_link links_of_page2)).
Definition page3 : Extract.Response :=
  page [pr42; pr42] (Some (Extract.render_link links_of_page3)).

(** A repository whose closed pull requests fill three pages. *)
Definition three_pages (rq : Extract.request) : result Extract.Response :=
  if String.eqb (Extract.req_url rq) (Extract.pulls_url "octo" "repo") then Ok page1
  else if String.eqb (Extract.req_url rq) page2_url then Ok page2
  else if String.eqb (Extract.req_url rq) page3_url then Ok page3
  else Raise (HTTPError 404).

End Sample.

(** ** transform.py: [safe_get] on untyped values *)

Module Dynamic.

(** A decoded JSON value; a dictionary is the list of its items, the first
    item of a key being the one [dict.get] finds. *)
#[local] Set Warnings "-register-all".
Inductive json : Type :=
| JNull
| JBool (b : bool)
| JNum (n : Z)
| JStr (s : string)
| JList (l : list json)
| JDict (items : list (string * json)).

(** [isinstance(v, dict)] *)
Definition is_dict (v : json) : bool :=
  match v with
  | JDict _ => true
  | _ => false
  end.

Fixpoint lookup (k : string) (items : list (string * json)) : option json :=
  match items with
  | [] => None
  | (k', v) :: rest => if String.eqb k k' then Some v else lookup k rest
  end.

(** [d.get(k, default)] on a dictionary's items. *)
Definition dict_get (items : list (string * json)) (k : string) (default : json) : json :=
  match lookup k items with
  | Some v => v
  | None => default
  end.

(** [safe_get(d, *keys, default=default)]: the loop leaves with [default] at
    the first value that is not a dictionary. *)
Fixpoint safe_get (cur : json) (keys : list string) (default : json) : json :=
  match keys with
  | [] => cur
  | k :: rest =>
      match cur with
      | JDict items => safe_get (dict_get items k default) rest default
      | _ => default
      end
  end.

End Dynamic.

(** ** Typed records against untyped values *)

(** What the decoder holds for a [str | None] value, and for a field. *)
Definition json_of_value (v : option string) : Dynamic.json :=
  match v with
  | Some s => Dynamic.JStr s
  | None => Dynamic.JNull
  end.

Definition json_of_field (f : field) : option Dynamic.json :=
  match f with
  | Absent => None
  | Null => Some Dynamic.JNull
  | Str s => Some (Dynamic.JStr s)
  end.

(** The dictionary [items] is an enriched record whose [combined_status]
    is the typed [cs]: the key is absent, or holds a dictionary with the
    same [state]. *)
Definition holds_combined_status (items : list (string * Dynamic.json))
    (cs : option CombinedStatus) : Prop :=
  match cs with
  | None => Dynamic.lookup "combined_status" items = None
  | Some c =>
      exists inner,
        Dynamic.lookup "combined_status" items = Some (Dynamic.JDict inner) /\
        Dynamic.lookup "state" inner = json_of_field (state c)
  end.

(** ** Vocabulary for what a consumer of the paginator sees *)

(** The indices of the pages handed over, in order. *)
Fixpoint page_indices (tr : list Extract.pstep) : list Z :=
  match tr with
  | [] => []
  | Extract.Page i _ :: tr' => i :: page_indices tr'
  | _ :: tr' => page_indices tr'
  end.

(** The requests sent, in order. *)
Fixpoint fetched (tr : list Extract.pstep) : list Extract.request :=
  match tr with
  | [] => []
  | Extract.Fetch rq :: tr' => rq :: fetched tr'
  | _ :: tr' => fetched tr'
  end.

(** Every page in the trace comes right after a request, and nothing else
    follows a request but a page or the error that ended the iteration. *)
Fixpoint alternates (tr : list Extract.pstep) : bool :=
  match tr with
  | [] => true
  | Extract.Fetch _ :: Extract.Page _ _ :: tr' => alternates tr'
  | [Extract.Fetch _; Extract.Error _] => true
  | [Extract.Fetch _] => false
  | _ => false
  end.

(** [1, 2, ..., n] *)
Fixpoint count_from (start : Z) (n : nat) : list Z :=
  match n with
  | O => []
  | S n' => start :: count_from (start + 1) n'
  end.

(** * Properties *)

Import Transform.

(** ** The end-to-end scenarios, run *)

Example scenario_strict_pass :
  option_map (fun row => (CR_PASSED row, CHECKS_PASSED row))
    (match compute_row (D := Iso8601.datetime) Sample.strict_item with
     | Ok row => Some row
     | Raise _ => None
     end)
  = Some (true, true).
Proof. vm_compute. reflexivity. Qed.

Example scenario_status_after_merge :
  latest_context_state_before_merge (D := Iso8601.datetime)
    (Some {| state := Str "success";
             statuses := Some [ {| context := Str "ci/build"; s_state := Str "success";
                                   updated_at := Str "2025-01-10T12:30:00Z" |} ] |})
    "ci/build" (Some 1736510400000000)
  = Ok false.
Proof. vm_compute. reflexivity. Qed.

Example scenario_fallback_vacuous :
  option_map (fun row => (CR_PASSED row, CHECKS_PASSED row))
    (match compute_row (D := Iso8601.datetime) Sample.fallback_item with
     | Ok row => Some row
     | Raise _ => None
     end)
  = Some (false, true).
Proof. vm_compute. reflexivity. Qed.

Example scenario_rate_limit_then_success :
  Extract.http_get Extract.default_http Sample.recovering Sample.at_noon Sample.willing
  = ([Extract.Sent 0; Extract.Slept 1; Extract.Sent 1; Extract.Slept 6; Extract.Sent 2],
     Ok (Some (Sample.page [] None))).
Proof. vm_compute. reflexivity. Qed.

Example scenario_iso_of_instant :
  Extract._to_utc_iso 1736510400123456 = "2025-01-10T12:00:00Z"
  /\ Extract._to_utc_iso 951782399000000 = "2000-02-28T23:59:59Z"
  /\ Extract._to_utc_iso 951782400000000 = "2000-02-29T00:00:00Z"
  /\ Extract._to_utc_iso 0 = "1970-01-01T00:00:00Z".
Proof. vm_compute. repeat split; reflexivity. Qed.

(** ** Lists *)

Lemma existsb_permutation {A : Type} (f : A -> bool) (l l' : list A) :
  Permutation l l' -> existsb f l = existsb f l'.
Proof.
  induction 1 as [| x l l' _ IH | x y l | l l' l'' _ IH1 _ IH2]; simpl.
  - reflexivity.
  - now rewrite IH.
  - destruct (f x), (f y); reflexivity.
  - now rewrite IH1.
Qed.

Lemma forallb_permutation {A : Type} (f : A -> bool) (l l' : list A) :
  Permutation l l' -> forallb f l = forallb f l'.
Proof.
  induction 1 as [| x l l' _ IH | x y l | l l' l'' _ IH1 _ IH2]; simpl.
  - reflexivity.
  - now rewrite IH.
  - destruct (f x), (f y); reflexivity.
  - now rewrite IH1.
Qed.

Lemma forallb_filter {A : Type} (f p : A -> bool) (l : list A) :
  forallb f l = true -> forallb f (filter p l) = true.
Proof.
  induction l as [| x l IH]; simpl; [easy |].
  intros H. apply andb_true_iff in H as [Hx Hl].
  destruct (p x); simpl; [rewrite Hx |]; auto.
Qed.

(** ** Timestamps *)

Section Timestamps.
Context {D : Datetime}.

(** On a well-formed field [parse_iso] returns, and what it returns is the
    instant the field denotes. *)
Lemma parse_iso_instant (f : field) :
  timestamp_ok f = true -> parse_iso (get f) = Ok (instant_of f).
Proof.
  destruct f as [| | [| c s]]; try reflexivity.
  unfold timestamp_ok, instant_of, parse_iso, iso_instant. cbn [get Py.truthy].
  now destruct (fromisoformat_utc _).
Qed.

(** A field [parse_iso] accepts is well formed. *)
Lemma parse_iso_accepts (f : field) (t : option Z) :
  parse_iso (get f) = Ok t -> timestamp_ok f = true.
Proof.
  destruct f as [| | [| c s]]; try reflexivity.
  unfold timestamp_ok, parse_iso, iso_instant. cbn [get Py.truthy].
  now destruct (fromisoformat_utc _).
Qed.

(** A field that is not well formed makes [parse_iso] raise. *)
Lemma parse_iso_rejects (f : field) :
  timestamp_ok f = false -> parse_iso (get f) = Raise ValueError.
Proof.
  destruct f as [| | [| c s]]; try discriminate.
  unfold timestamp_ok, parse_iso, iso_instant. cbn [get Py.truthy].
  now destruct (fromisoformat_utc _).
Qed.

(** The test [a is None or b is None or a <= b] is the timing rule. *)
Lemma none_or_le_not_after (a b : option Z) : none_or_le a b = not_after a b.
Proof. now destruct a, b. Qed.

Lemma parse_iso_get_default (f : field) :
  parse_iso (get_default f "") = parse_iso (get f).
Proof. destruct f; reflexivity. Qed.

Lemma not_after_spec (a b : option Z) :
  not_after a b = true <-> (forall x y, a = Some x -> b = Some y -> x <= y).
Proof.
  destruct a as [x |], b as [y |]; simpl; split; intros H; try easy.
  - intros x' y' [= <-] [= <-]. now apply Z.leb_le.
  - apply Z.leb_le. now apply H.
Qed.

End Timestamps.

(** ** Code review *)

Section CodeReview.
Context {D : Datetime}.

Lemma review_approved_existsb (revs : list Review) (merged : option Z) :
  forallb (fun r => timestamp_ok (submitted_at r)) revs = true ->
  review_approved_before_merge revs merged = Ok (existsb (approves merged) revs).
Proof.
  induction revs as [| r revs IH]; simpl; [easy |].
  intros H. apply andb_true_iff in H as [Hr Hrevs].
  unfold approves at 1. unfold APPROVED.
  destruct (Py.eq_lit (get (r_state r)) "APPROVED"); simpl; [| auto].
  rewrite (parse_iso_instant _ Hr). simpl. rewrite none_or_le_not_after.
  destruct (not_after (instant_of (submitted_at r)) merged); simpl; auto.
Qed.

Lemma eq_lit_spec (a : option string) (lit : string) :
  Py.eq_lit a lit = true <-> a = Some lit.
Proof.
  destruct a as [s |]; simpl; [| easy].
  rewrite String.eqb_eq. split; [now intros -> | now intros [= ->]].
Qed.

Lemma approves_spec (merged : option Z) (r : Review) :
  approves merged r = true <->
  get (r_state r) = Some "APPROVED" /\
  (forall s m, instant_of (submitted_at r) = Some s -> merged = Some m -> s <= m).
Proof.
  unfold approves. rewrite andb_true_iff, eq_lit_spec, not_after_spec. reflexivity.
Qed.

End CodeReview.

(** ** Status entries: the newest-first sort and the entry it puts first *)

Section Statuses.
Context {D : Datetime}.

Lemma ltb_leb_false (a b : string) :
  String.leb a b = true -> String.ltb b a = false.
Proof.
  unfold String.leb, String.ltb. rewrite (String.compare_antisym a b).
  destruct (String.compare b a); simpl; easy.
Qed.

Lemma in_insert_desc (x y : StatusEntry) (l : list StatusEntry) :
  In y (insert_desc x l) <-> y = x \/ In y l.
Proof.
  induction l as [| z l IH]; simpl.
  - intuition.
  - destruct (String.ltb (key_string x) (key_string z)); simpl; rewrite ?IH; intuition.
Qed.

Lemma in_sorted (y : StatusEntry) (l : list StatusEntry) :
  In y (fold_right insert_desc [] l) <-> In y l.
Proof.
  induction l as [| x l IH]; simpl; [easy |].
  rewrite in_insert_desc, IH. intuition.
Qed.

(** The head of the sorted list is the first entry of greatest key: every
    entry before it in the original order has a strictly smaller key and no
    entry after it has a greater one. *)
Lemma sorted_head (pre post : list StatusEntry) (sel : StatusEntry) :
  (forall s, In s pre -> String.ltb (key_string s) (key_string sel) = true) ->
  (forall s, In s post -> String.leb (key_string s) (key_string sel) = true) ->
  exists rest, fold_right insert_desc [] (pre ++ sel :: post) = sel :: rest.
Proof.
  intros Hpre Hpost. induction pre as [| p pre IH]; simpl.
  - destruct (fold_right insert_desc [] post) as [| y l] eqn:E; simpl.
    + now exists [].
    + assert (Hy : In y post) by (apply in_sorted; rewrite E; now left).
      rewrite (ltb_leb_false _ _ (Hpost y Hy)). now exists (y :: l).
  - destruct IH as [rest ->]; [intros s Hs; apply Hpre; now right |].
    simpl. rewrite (Hpre p (or_introl eq_refl)). eauto.
Qed.

Lemma leb_ltb_false (a b : string) :
  String.ltb a b = false -> String.leb b a = true.
Proof.
  unfold String.leb, String.ltb. rewrite (String.compare_antisym a b).
  destruct (String.compare b a); simpl; easy.
Qed.

Lemma ltb_leb (a b : string) : String.ltb a b = true -> String.leb a b = true.
Proof.
  unfold String.leb, String.ltb. destruct (String.compare a b); easy.
Qed.

Lemma ascii_compare_refl (c : ascii) : Ascii.compare c c = Eq.
Proof. unfold Ascii.compare. apply N.compare_refl. Qed.

Lemma compare_trans_lt (a b c : string) :
  String.compare a b = Lt -> String.compare b c = Lt -> String.compare a c = Lt.
Proof.
  revert b c. induction a as [| x a IH]; intros [| y b] [| z c]; simpl; try easy.
  destruct (Ascii.compare x y) eqn:Exy; try easy;
  destruct (Ascii.compare y z) eqn:Eyz; try easy; intros Hab Hbc.
  - apply Ascii.compare_eq_iff in Exy, Eyz. subst.
    rewrite ascii_compare_refl. eauto.
  - apply Ascii.compare_eq_iff in Exy. subst. now rewrite Eyz.
  - apply Ascii.compare_eq_iff in Eyz. subst. now rewrite Exy.
  - unfold Ascii.compare in *. rewrite N.compare_lt_iff in *.
    assert (H : (N_of_ascii x < N_of_ascii z)%N) by lia.
    apply N.compare_lt_iff in H. now rewrite H.
Qed.

Lemma leb_trans (a b c : string) :
  String.leb a b = true -> String.leb b c = true -> String.leb a c = true.
Proof.
  unfold String.leb.
  destruct (String.compare a b) eqn:Eab; try easy;
  destruct (String.compare b c) eqn:Ebc; try easy; intros _ _.
  - apply String.compare_eq_iff in Eab. subst. now rewrite Ebc.
  - apply String.compare_eq_iff in Eab. subst. now rewrite Ebc.
  - apply String.compare_eq_iff in Ebc. subst. now rewrite Eab.
  - now rewrite (compare_trans_lt _ _ _ Eab Ebc).
Qed.

(** Such an entry exists in every non-empty list. *)
Lemma first_greatest_exists (l : list StatusEntry) :
  l <> [] ->
  exists pre sel post,
    l = (pre ++ sel :: post)%list /\
    (forall s, In s pre -> String.ltb (key_string s) (key_string sel) = true) /\
    (forall s, In s post -> String.leb (key_string s) (key_string sel) = true).
Proof.
  induction l as [| x l IH]; [easy | intros _].
  destruct l as [| y l'].
  - exists [], x, []. repeat split; simpl; intros s [].
  - destruct IH as (pre & sel & post & E & Hpre & Hpost); [easy |].
    destruct (String.ltb (key_string x) (key_string sel)) eqn:Hlt.
    + exists (x :: pre), sel, post. rewrite E. repeat split; auto.
      intros s [<- | Hs]; auto.
    + exists [], x, (y :: l'). repeat split; [intros s [] |].
      apply leb_ltb_false in Hlt.
      intros s Hs. rewrite E in Hs. apply in_app_or in Hs as [Hs | [<- | Hs]].
      * apply leb_trans with (key_string sel); auto using ltb_leb.
      * assumption.
      * apply leb_trans with (key_string sel); auto.
Qed.

Lemma status_ok_key (s : StatusEntry) :
  status_ok s = true -> sort_key s = Some (key_string s).
Proof.
  unfold status_ok, key_string, sort_key. destruct (updated_at s); simpl;
    rewrite ?andb_false_r; easy.
Qed.

Lemma sort_newest_first_ok (l : list StatusEntry) :
  forallb status_ok l = true ->
  sort_newest_first l = Ok (fold_right insert_desc [] l).
Proof.
  intros H. destruct l as [| x [| y l]]; try reflexivity.
  unfold sort_newest_first.
  replace (forallb _ (x :: y :: l)) with true; [reflexivity |].
  symmetry. apply forallb_forall. intros s Hs.
  rewrite forallb_forall in H. now rewrite (status_ok_key s (H s Hs)).
Qed.

Lemma selected_in (ctx : string) (sts : list StatusEntry) (latest : StatusEntry) :
  selected ctx sts = Some latest -> In latest (matching ctx sts).
Proof.
  unfold selected.
  destruct (fold_right insert_desc [] (matching ctx sts)) as [| y l] eqn:E; [easy |].
  intros [= <-]. apply in_sorted. rewrite E. now left.
Qed.

Lemma selected_none (ctx : string) (sts : list StatusEntry) :
  selected ctx sts = None <-> matching ctx sts = [].
Proof.
  unfold selected. split.
  - destruct (matching ctx sts) as [| x l]; [easy |]. simpl.
    destruct (fold_right insert_desc [] l); simpl; [easy |].
    destruct (String.ltb _ _); easy.
  - now intros ->.
Qed.

(** On well-formed entries [latest_context_state_before_merge] returns, and
    its value is the verdict on the entry the sort puts first. *)
Lemma latest_context_state_ok (cs : option CombinedStatus) (ctx : string)
    (merged : option Z) :
  forallb status_ok (statuses_in cs) = true ->
  latest_context_state_before_merge cs ctx merged
  = Ok (context_passes merged (statuses_in cs) ctx).
Proof.
  intros Hwf. unfold latest_context_state_before_merge, context_passes.
  fold (statuses_in cs).
  pose proof (forallb_filter status_ok
                (fun s => Py.eq_lit (get (context s)) ctx) _ Hwf) as Hcand.
  fold (matching ctx (statuses_in cs)) in Hcand.
  pose proof (selected_in ctx (statuses_in cs)) as Hin.
  pose proof (selected_none ctx (statuses_in cs)) as Hnone.
  unfold selected in *.
  destruct (matching ctx (statuses_in cs)) as [| c cands] eqn:E; [reflexivity |].
  rewrite (sort_newest_first_ok _ Hcand).
  destruct (fold_right insert_desc [] (c :: cands)) as [| latest rest].
  - discriminate (proj1 Hnone eq_refl).
  - unfold entry_passes. simpl bind.
    destruct (Py.eq_lit (get (s_state latest)) "success"); simpl; [| reflexivity].
    assert (Hl : status_ok latest = true).
    { rewrite forallb_forall in Hcand. apply Hcand, Hin. reflexivity. }
    apply andb_true_iff in Hl as [Hts _].
    now rewrite (parse_iso_instant _ Hts).
Qed.

Lemma all_required_forallb (cs : option CombinedStatus) (ctxs : list string)
    (merged : option Z) :
  forallb status_ok (statuses_in cs) = true ->
  all_required cs ctxs merged
  = Ok (forallb (context_passes merged (statuses_in cs)) ctxs).
Proof.
  intros Hwf. induction ctxs as [| ctx ctxs IH]; simpl; [reflexivity |].
  rewrite (latest_context_state_ok _ _ _ Hwf). simpl.
  destruct (context_passes merged (statuses_in cs) ctx); simpl; auto.
Qed.

End Statuses.

(** ** Check runs *)

Section CheckRuns.
Context {D : Datetime}.

Lemma check_runs_loop_forallb (runs : list CheckRun) (merged : option Z) :
  forallb (fun r => timestamp_ok (completed_at r)) runs = true ->
  check_runs_loop runs merged = Ok (forallb (run_passes merged) runs).
Proof.
  induction runs as [| r runs IH]; cbn [check_runs_loop forallb]; [reflexivity |].
  intros H. apply andb_true_iff in H as [Hr Hruns]. unfold run_passes at 1.
  replace (in_set (get (conclusion r)) ["success"; "neutral"; "skipped"])
    with (orb (Py.eq_lit (get (conclusion r)) "success")
              (orb (Py.eq_lit (get (conclusion r)) "neutral")
                   (Py.eq_lit (get (conclusion r)) "skipped")))
    by (unfold in_set; cbn [existsb]; now rewrite orb_false_r).
  destruct (orb _ _); cbn [negb andb]; [| reflexivity].
  rewrite (parse_iso_instant _ Hr). cbn [bind]. rewrite none_or_le_not_after.
  destruct (not_after (instant_of (completed_at r)) merged); cbn [negb]; auto.
Qed.

Lemma all_check_runs_forallb (it : Item) (merged : option Z) :
  forallb (fun r => timestamp_ok (completed_at r)) (runs_of it) = true ->
  all_check_runs_passed_before_merge (item_check_runs it) merged
  = Ok (forallb (run_passes merged) (runs_of it)).
Proof.
  unfold all_check_runs_passed_before_merge, runs_of.
  destruct (item_check_runs it) as [o |]; [| reflexivity].
  destruct (check_runs o) as [[| r rs] |]; try reflexivity.
  apply check_runs_loop_forallb.
Qed.

End CheckRuns.

(** ** The whole row *)

Section WholeRow.
Context {D : Datetime}.

Lemma combined_ok_success (it : Item) :
  in_set (combined_state_of it) SUCCESS_STATES = combined_success it.
Proof.
  unfold in_set, combined_state_of, combined_success, SUCCESS_STATES. simpl.
  destruct (combined_status it) as [c |]; [| reflexivity].
  destruct (state c); simpl; rewrite ?orb_false_r; reflexivity.
Qed.

Lemma compute_row_ok (it : Item) :
  well_formed it = true ->
  exists row, compute_row it = Ok row /\
    CR_PASSED row = cr_verdict it /\ CHECKS_PASSED row = checks_verdict it.
Proof.
  unfold well_formed. rewrite !andb_true_iff. intros (Hm & Hrev & Hst & Hruns).
  unfold compute_row, cr_verdict, checks_verdict.
  rewrite parse_iso_get_default, (parse_iso_instant _ Hm). cbn [bind].
  fold (reviews_of it). rewrite (review_approved_existsb _ _ Hrev). cbn [bind].
  rewrite (all_check_runs_forallb _ _ Hruns). cbn [bind].
  rewrite combined_ok_success.
  destruct (required_contexts_from_protection (required_status_checks it)) as [| c ctxs].
  - cbn [bind]. eexists. split; [reflexivity |]. simpl. auto.
  - rewrite (all_required_forallb _ _ _ Hst). cbn [bind].
    eexists. split; [reflexivity |]. simpl. auto.
Qed.

End WholeRow.

(** ** The gate evaluator: CR_PASSED *)

(** C1. For every well-formed composite record [compute_row] returns a row,
    and its CR_PASSED is true exactly when the reviews list holds a review
    whose state is APPROVED and whose submitted-at, when both it and the
    PR's merged-at are present, is not after merged-at. An approving review
    with a missing timestamp on either side therefore counts, and without
    any approving review CR_PASSED is false. *)
Theorem cr_passed_iff_approved_review {D : Datetime} (it : Item) :
  well_formed it = true ->
  exists row, compute_row it = Ok row /\
    (CR_PASSED row = true <->
     exists r, In r (reviews_of it) /\
       get (r_state r) = Some "APPROVED" /\
       (forall s m, instant_of (submitted_at r) = Some s ->
                    instant_of (merged_at (pr it)) = Some m -> s <= m)).
Proof.
  intros Hwf. destruct (compute_row_ok it Hwf) as (row & Hrow & Hcr & _).
  exists row. split; [exact Hrow |].
  rewrite Hcr. unfold cr_verdict. rewrite existsb_exists.
  split; intros (r & Hin & Hr); exists r; (split; [exact Hin |]);
    now apply approves_spec.
Qed.

Lemma cr_passed_iff_approved_review_witness :
  (exists row, compute_row (D := Iso8601.datetime) Sample.strict_item = Ok row /\
               CR_PASSED row = true) /\
  (exists row, compute_row (D := Iso8601.datetime) Sample.late_review_item = Ok row /\
               CR_PASSED row = false).
Proof.
  split.
  - destruct (cr_passed_iff_approved_review (D := Iso8601.datetime) Sample.strict_item)
      as (row & Hrow & Hiff); [vm_compute; reflexivity |].
    exists row. split; [exact Hrow |]. apply Hiff.
    exists Sample.approval. split; [simpl; auto |]. split; [reflexivity |].
    intros s m Hs Hm. vm_compute in Hs, Hm.
    injection Hs as <-. injection Hm as <-. lia.
  - destruct (cr_passed_iff_approved_review (D := Iso8601.datetime)
                Sample.late_review_item)
      as (row & Hrow & Hiff); [vm_compute; reflexivity |].
    exists row. split; [exact Hrow |].
    destruct (CR_PASSED row); [| reflexivity].
    destruct (proj1 Hiff eq_refl) as (r & Hin & Hst & Hle).
    simpl in Hin. destruct Hin as [<- | [<- | []]]; [discriminate Hst |].
    assert (H : 1736514000000000 <= 1736510400000000)
      by (apply Hle; vm_compute; reflexivity).
    lia.
Defined.

(** C9. For every reviews list with well-formed timestamps, every
    permutation of it and every merged-at value,
    [review_approved_before_merge] returns the same verdict on both
    lists. *)
Theorem review_verdict_order_independent {D : Datetime}
    (revs revs' : list Review) (merged : option Z) :
  forallb (fun r => timestamp_ok (submitted_at r)) revs = true ->
  Permutation revs revs' ->
  exists b, review_approved_before_merge revs merged = Ok b /\
            review_approved_before_merge revs' merged = Ok b.
Proof.
  intros Hwf Hperm.
  assert (Hwf' : forallb (fun r => timestamp_ok (submitted_at r)) revs' = true)
    by now rewrite <- (forallb_permutation _ _ _ Hperm).
  exists (existsb (approves merged) revs). split.
  - now apply review_approved_existsb.
  - rewrite (existsb_permutation _ _ _ Hperm). now apply review_approved_existsb.
Qed.

Lemma review_verdict_order_independent_witness :
  exists b,
    review_approved_before_merge (D := Iso8601.datetime)
      [Sample.late_approval; Sample.comment; Sample.approval]
      (Some 1736510400000000) = Ok b /\
    review_approved_before_merge (D := Iso8601.datetime)
      [Sample.approval; Sample.late_approval; Sample.comment]
      (Some 1736510400000000) = Ok b.
Proof.
  apply (review_verdict_order_independent (D := Iso8601.datetime)).
  - vm_compute. reflexivity.
  - apply Permutation_sym, (Permutation_cons_append [_; _]).
Defined.

(** ** The gate evaluator: CHECKS_PASSED *)

Lemma entry_passes_spec {D : Datetime} (merged : option Z) (s : StatusEntry) :
  entry_passes merged s = true <->
  get (s_state s) = Some "success" /\
  (forall u m, instant_of (updated_at s) = Some u -> merged = Some m -> u <= m).
Proof.
  unfold entry_passes. rewrite andb_true_iff, eq_lit_spec, not_after_spec. reflexivity.
Qed.

Lemma matching_entries_of (ctx : string) (sts : list StatusEntry) :
  matching ctx sts = entries_of ctx sts.
Proof.
  unfold matching, entries_of. apply filter_ext. intros s. now destruct (context s).
Qed.

Lemma key_string_updated_key (s : StatusEntry) : key_string s = updated_key s.
Proof. unfold key_string, sort_key, updated_key. now destruct (updated_at s). Qed.

(** C2, as the code has it. For a required context name the evaluator
    selects, among the status entries whose context equals that name, the
    entry with the greatest updated-at string (an absent one counting as
    the empty string); among entries of equal updated-at the one appearing
    FIRST in the statuses list wins. The verdict is true exactly when the
    selected entry has state success and its updated-at, when both it and
    merged-at are present, is not after merged-at. Without a matching entry
    the verdict is false. *)
Theorem latest_entry_is_first_of_greatest {D : Datetime}
    (cs : option CombinedStatus) (ctx : string) (merged : option Z) :
  forallb status_ok (statuses_in cs) = true ->
  (entries_of ctx (statuses_in cs) = [] ->
   latest_context_state_before_merge cs ctx merged = Ok false) /\
  (entries_of ctx (statuses_in cs) <> [] ->
   exists pre sel post b,
     entries_of ctx (statuses_in cs) = (pre ++ sel :: post)%list /\
     (forall s, In s pre -> String.ltb (updated_key s) (updated_key sel) = true) /\
     (forall s, In s post -> String.leb (updated_key s) (updated_key sel) = true) /\
     latest_context_state_before_merge cs ctx merged = Ok b /\
     (b = true <->
      get (s_state sel) = Some "success" /\
      (forall u m, instant_of (updated_at sel) = Some u -> merged = Some m -> u <= m))).
Proof.
  intros Hwf. rewrite (latest_context_state_ok cs ctx merged Hwf).
  rewrite <- matching_entries_of. unfold context_passes. split.
  - intros E. now rewrite (proj2 (selected_none ctx (statuses_in cs)) E).
  - intros Hne.
    destruct (first_greatest_exists _ Hne) as (pre & sel & post & E & Hpre & Hpost).
    exists pre, sel, post, (entry_passes merged sel).
    split; [exact E |].
    split; [intros s Hs; rewrite <- !key_string_updated_key; now apply Hpre |].
    split; [intros s Hs; rewrite <- !key_string_updated_key; now apply Hpost |].
    unfold selected. rewrite E.
    destruct (sorted_head pre post sel Hpre Hpost) as [rest ->].
    split; [reflexivity | apply entry_passes_spec].
Qed.

(** A failure at 09:00 and a success at 12:30 for a merge at 12:00: the
    success is selected, and it is too late. *)
Lemma latest_entry_is_first_of_greatest_witness :
  latest_context_state_before_merge (D := Iso8601.datetime)
    Sample.fixed_late "ci/build" (Some 1736510400000000)
  = Ok false.
Proof.
  destruct (latest_entry_is_first_of_greatest (D := Iso8601.datetime)
              Sample.fixed_late "ci/build" (Some 1736510400000000))
    as [_ H]; [vm_compute; reflexivity |].
  destruct H as (pre & sel & post & b & E & Hpre & Hpost & Hb & Hiff);
    [discriminate |].
  rewrite Hb. f_equal. destruct b; [| reflexivity].
  destruct (proj1 Hiff eq_refl) as [Hst Hle].
  change (entries_of "ci/build" (statuses_in Sample.fixed_late))
    with [Sample.build_early; Sample.build_late] in E.
  destruct pre as [| x [| y pre]].
  - injection E as <- <-. discriminate Hst.
  - injection E as <- <- <-.
    assert (H : 1736512200000000 <= 1736510400000000)
      by (apply Hle; vm_compute; reflexivity).
    lia.
  - injection E as _ _ E. now destruct pre.
Defined.

(** C2 as stated fails: were ties broken by last-seen order, the later of
    two entries with the same updated-at would be selected. On a failure
    followed by a success of the same context and time the claim selects
    the success and predicts a pass, while the code selects the failure. *)
Lemma last_seen_tie_break_refuted :
  ~ (forall (cs : option CombinedStatus) (ctx : string) (merged : option Z)
            (pre post : list StatusEntry) (sel : StatusEntry),
       forallb (status_ok (D := Iso8601.datetime)) (statuses_in cs) = true ->
       entries_of ctx (statuses_in cs) = (pre ++ sel :: post)%list ->
       (forall s, In s pre -> String.leb (updated_key s) (updated_key sel) = true) ->
       (forall s, In s post -> String.ltb (updated_key s) (updated_key sel) = true) ->
       latest_context_state_before_merge (D := Iso8601.datetime) cs ctx merged
       = Ok (entry_passes (D := Iso8601.datetime) merged sel)).
Proof.
  intros H.
  specialize (H Sample.tied "ci/build" (Some 1736510400000000)
                [Sample.build_failed] [] Sample.build_ok).
  assert (E : latest_context_state_before_merge (D := Iso8601.datetime)
                Sample.tied "ci/build" (Some 1736510400000000)
              = Ok (entry_passes (D := Iso8601.datetime)
                      (Some 1736510400000000) Sample.build_ok)).
  { apply H.
    - vm_compute. reflexivity.
    - reflexivity.
    - intros s [<- | []]. vm_compute. reflexivity.
    - intros s []. }
  vm_compute in E. discriminate E.
Qed.

(** C4. On the strict path, if some required context has no status entry
    whose context field equals it, CHECKS_PASSED is false. *)
Theorem missing_required_context_fails {D : Datetime} (it : Item) (ctx : string) :
  well_formed it = true ->
  In ctx (required_contexts_from_protection (required_status_checks it)) ->
  (forall s, In s (statuses_of it) -> get (context s) <> Some ctx) ->
  exists row, compute_row it = Ok row /\ CHECKS_PASSED row = false.
Proof.
  intros Hwf Hin Hnone. destruct (compute_row_ok it Hwf) as (row & Hrow & _ & Hck).
  exists row. split; [exact Hrow |]. rewrite Hck. unfold checks_verdict.
  destruct (required_contexts_from_protection (required_status_checks it))
    as [| c ctxs] eqn:E; [destruct Hin |].
  apply not_true_is_false. intros Hall. rewrite forallb_forall in Hall.
  specialize (Hall ctx Hin). unfold context_passes in Hall.
  destruct (selected ctx (statuses_of it)) as [latest |] eqn:Hsel; [| discriminate].
  apply selected_in in Hsel. unfold matching in Hsel.
  apply filter_In in Hsel as [Hs Hctx]. apply eq_lit_spec in Hctx.
  exact (Hnone latest Hs Hctx).
Qed.

Lemma missing_required_context_fails_witness :
  exists row, compute_row (D := Iso8601.datetime) Sample.missing_context_item = Ok row /\
              CHECKS_PASSED row = false.
Proof.
  apply (missing_required_context_fails (D := Iso8601.datetime)
           Sample.missing_context_item "ci/test").
  - vm_compute. reflexivity.
  - simpl. right. left. reflexivity.
  - intros s [<- | []]. simpl. discriminate.
Defined.

Lemma run_passes_spec {D : Datetime} (merged : option Z) (r : CheckRun) :
  run_passes merged r = true <->
  (get (conclusion r) = Some "success" \/ get (conclusion r) = Some "neutral"
   \/ get (conclusion r) = Some "skipped") /\
  (forall c m, instant_of (completed_at r) = Some c -> merged = Some m -> c <= m).
Proof.
  unfold run_passes, in_set. simpl existsb.
  rewrite andb_true_iff, !orb_true_iff, !eq_lit_spec, not_after_spec.
  intuition discriminate.
Qed.

(** C3. For a well-formed record [compute_row] returns a row. When the
    extracted required-context list is empty, which includes the case of an
    unavailable branch-protection payload, CHECKS_PASSED is true exactly
    when the combined status's top-level state is success and every check
    run has a conclusion among success, neutral and skipped and, when both
    timestamps are present, completed-at not after merged-at; an empty or
    absent check-run list leaves only the first condition. When the list is
    not empty the strict path is taken instead: CHECKS_PASSED is the
    conjunction over the required contexts. *)
Theorem fallback_path_rule {D : Datetime} (it : Item) :
  well_formed it = true ->
  exists row, compute_row it = Ok row /\
    let ctxs := required_contexts_from_protection (required_status_checks it) in
    let merged := instant_of (merged_at (pr it)) in
    (required_status_checks it = None -> ctxs = []) /\
    (ctxs = [] ->
     (CHECKS_PASSED row = true <->
      (exists c, combined_status it = Some c /\ get (state c) = Some "success") /\
      (forall r, In r (runs_of it) ->
         (get (conclusion r) = Some "success" \/ get (conclusion r) = Some "neutral"
          \/ get (conclusion r) = Some "skipped") /\
         (forall c m, instant_of (completed_at r) = Some c -> merged = Some m -> c <= m)))
     /\ (runs_of it = [] -> CHECKS_PASSED row = combined_success it)) /\
    (ctxs <> [] ->
     CHECKS_PASSED row = forallb (context_passes merged (statuses_of it)) ctxs).
Proof.
  intros Hwf. destruct (compute_row_ok it Hwf) as (row & Hrow & _ & Hck).
  exists row. split; [exact Hrow |]. cbv zeta. rewrite Hck. unfold checks_verdict.
  split; [now intros -> |].
  destruct (required_contexts_from_protection (required_status_checks it)) as [| c ctxs].
  - split; [intros _ | easy]. split.
    + rewrite andb_true_iff, forallb_forall. unfold combined_success.
      split; intros [Hc Hruns]; split.
      * destruct (combined_status it) as [c |]; [| discriminate].
        exists c. split; [reflexivity | now apply eq_lit_spec].
      * intros r Hr. now apply run_passes_spec, Hruns.
      * destruct Hc as (c & -> & Hs). now apply eq_lit_spec.
      * intros r Hr. now apply run_passes_spec, Hruns.
    + intros ->. simpl. apply andb_true_r.
  - split; [easy | reflexivity].
Qed.

(** Two successful check runs, the second completed half an hour after the
    merge, on the fallback path: the run rule fails the record. *)
Lemma fallback_path_rule_witness :
  exists row, compute_row (D := Iso8601.datetime) Sample.fallback_late_item = Ok row /\
              CHECKS_PASSED row = false.
Proof.
  destruct (fallback_path_rule (D := Iso8601.datetime) Sample.fallback_late_item)
    as (row & Hrow & H); [vm_compute; reflexivity |].
  exists row. split; [exact Hrow |].
  cbv zeta in H. destruct H as (_ & Hfallback & _).
  destruct (Hfallback eq_refl) as [Hiff _].
  destruct (CHECKS_PASSED row); [| reflexivity].
  destruct (proj1 Hiff eq_refl) as [_ Hruns].
  destruct (Hruns Sample.run_late) as [_ Hle]; [simpl; auto |].
  assert (H : 1736512200000000 <= 1736510400000000)
    by (apply Hle; vm_compute; reflexivity).
  lia.
Defined.

(** C10. On the strict path CHECKS_PASSED does not depend on the check-runs
    payload nor on the combined status's top-level state: two well-formed
    records that agree on the pull request, the reviews, the status entries
    and the branch-protection payload, the latter yielding a non-empty list
    of required contexts, get the same CHECKS_PASSED from [compute_row]. *)
Theorem strict_path_ignores_runs_and_state {D : Datetime} (it1 it2 : Item) :
  well_formed it1 = true ->
  well_formed it2 = true ->
  pr it1 = pr it2 ->
  reviews it1 = reviews it2 ->
  option_map statuses (combined_status it1) = option_map statuses (combined_status it2) ->
  required_status_checks it1 = required_status_checks it2 ->
  required_contexts_from_protection (required_status_checks it1) <> [] ->
  exists row1 row2,
    compute_row it1 = Ok row1 /\ compute_row it2 = Ok row2 /\
    CHECKS_PASSED row1 = CHECKS_PASSED row2.
Proof.
  intros Hwf1 Hwf2 Hpr Hrev Hst Hreq Hne.
  destruct (compute_row_ok it1 Hwf1) as (row1 & Hrow1 & _ & Hck1).
  destruct (compute_row_ok it2 Hwf2) as (row2 & Hrow2 & _ & Hck2).
  exists row1, row2. repeat (split; [assumption |]).
  rewrite Hck1, Hck2. unfold checks_verdict. rewrite <- Hreq, <- Hpr.
  assert (Hsts : statuses_of it1 = statuses_of it2).
  { unfold statuses_of, statuses_in.
    destruct (combined_status it1), (combined_status it2); simpl in Hst;
      try discriminate; [now injection Hst as -> | reflexivity]. }
  rewrite <- Hsts.
  now destruct (required_contexts_from_protection (required_status_checks it1)).
Qed.

Lemma strict_path_ignores_runs_and_state_witness :
  exists row1 row2,
    compute_row (D := Iso8601.datetime) Sample.strict_item = Ok row1 /\
    compute_row (D := Iso8601.datetime) Sample.strict_item' = Ok row2 /\
    CHECKS_PASSED row1 = CHECKS_PASSED row2.
Proof.
  apply (strict_path_ignores_runs_and_state (D := Iso8601.datetime)
           Sample.strict_item Sample.strict_item');
    try reflexivity.
  vm_compute. discriminate.
Defined.

(** ** The rate-limited fetcher *)

Import Extract.

Section RetryLoop.
Variable http : GitHubHTTP.
Variable server : nat -> Response.
Variable clock : nat -> Z.
Variable os : nat -> Z -> bool.

Lemma rate_limited_not_ok (resp : Response) :
  rate_limited resp = true -> ok resp = false.
Proof.
  unfold rate_limited, ok. intros H. apply andb_true_iff in H as [H _].
  apply Z.eqb_eq in H. now rewrite H.
Qed.

Lemma get_loop_exhausted (attempt : nat) (last : option Response) :
  get_loop http server clock os 0 attempt last = ([], exhausted last).
Proof.
  simpl. destruct last as [resp |]; [| reflexivity].
  unfold exhausted, io_bind, lift, raise_for_status, ret. now destruct (ok resp).
Qed.

(** [time.sleep] either sleeps the length it was given or raises without
    having slept. *)
Lemma time_sleep_cases (granted : Z -> bool) (w : Z) :
  (sleepable granted w = true /\ time_sleep granted w = ([Slept w], Ok tt)) \/
  (sleepable granted w = false /\ exists e, time_sleep granted w = ([], Raise e)).
Proof.
  unfold sleepable, time_sleep, lift, sleep_max.
  destruct (Z.ltb_spec w (Z.opp 9223372036)), (Z.ltb_spec 9223372036 w),
    (Z.ltb_spec w 0), (Z.leb_spec 0 w), (Z.leb_spec w 9223372036);
    try lia; cbn [orb andb]; eauto.
  destruct (granted w); eauto.
Qed.

Lemma wait_fine_value (a : nat) :
  wait_fine http server clock os a ->
  wait_after http server clock a = Ok (wait_value http server clock a)
  /\ sleepable (os a) (wait_value http server clock a) = true.
Proof.
  intros (w & E & Hw). unfold wait_value. now rewrite E.
Qed.


(** One failed attempt: the request, the sleep, and the loop goes on with
    the next attempt. *)
Lemma get_loop_failed_attempt (remaining attempt : nat) (last : option Response) :
  ok (server attempt) = false ->
  wait_fine http server clock os attempt ->
  get_loop http server clock os (S remaining) attempt last
  = ((Sent attempt :: Slept (wait_value http server clock attempt)
        :: fst (get_loop http server clock os remaining (S attempt)
                  (Some (server attempt))))%list,
     snd (get_loop http server clock os remaining (S attempt) (Some (server attempt)))).
Proof.
  intros Hok Hw. apply wait_fine_value in Hw as [E Hs].
  unfold wait_after in E. cbn [get_loop]. unfold send at 1. unfold io_bind at 1.
  cbn [fst snd]. rewrite Hok.
  assert (Hsleep : time_sleep (os attempt) (wait_value http server clock attempt)
                   = ([Slept (wait_value http server clock attempt)], Ok tt)).
  { destruct (time_sleep_cases (os attempt) (wait_value http server clock attempt))
      as [[_ H] | [H _]]; [exact H | congruence]. }
  destruct (rate_limited (server attempt)); rewrite E;
    unfold lift, io_bind; cbn [fst snd]; rewrite Hsleep; cbn [fst snd];
    destruct (snd (get_loop http server clock os remaining (S attempt)
                     (Some (server attempt))));
    reflexivity.
Qed.


Lemma get_loop_all_failed (remaining attempt : nat) (last : option Response) :
  (forall i, (attempt <= i < attempt + remaining)%nat ->
             ok (server i) = false /\ wait_fine http server clock os i) ->
  get_loop http server clock os remaining attempt last
  = (retry_trace http server clock attempt remaining,
     exhausted (match remaining with
                | O => last
                | S n => Some (server (attempt + n))
                end)).
Proof.
  revert attempt last. induction remaining as [| n IH]; intros attempt last H.
  - apply get_loop_exhausted.
  - destruct (H attempt ltac:(lia)) as [Hok Hw].
    rewrite (get_loop_failed_attempt _ _ _ Hok Hw).
    rewrite (IH (S attempt) (Some (server attempt))) by (intros i Hi; apply H; lia).
    cbn [fst snd]. unfold retry_trace. cbn [seq flat_map app]. f_equal.
    destruct n as [| n']; [now rewrite Nat.add_0_r |].
    now replace (S attempt + n')%nat with (attempt + S n')%nat by lia.
Qed.




Lemma sleeps_fine_wait (a : nat) :
  sleeps_fine http server clock os = true -> (a < max_retries http)%nat ->
  wait_fine http server clock os a.
Proof.
  unfold sleeps_fine. rewrite forallb_forall. intros H Ha.
  assert (Hin : In a (seq 0 (max_retries http))) by (apply in_seq; lia).
  specialize (H a Hin). unfold wait_fine.
  destruct (wait_after http server clock a) as [w | e]; [| discriminate].
  exists w. split; [reflexivity | exact H].
Qed.




End RetryLoop.




Lemma reset_wait_rule (http : GitHubHTTP) (attempt : nat) (reset : string) (now : Z) :
  Py.isdigit reset = true ->
  rate_limit_wait http attempt (Some reset) now
  = (n <- Py.int reset ;; Ok (Z.max 0 (n - now + 1))).
Proof.
  intros H. unfold rate_limit_wait. rewrite H.
  destruct reset; [discriminate H | reflexivity].
Qed.

(** C6 on the code. With the default client, the waits after rate-limited
    responses that carry no reset header, or one that is not a number, are
    6, 12, 18, 24 and 30 seconds for the attempts 0 to 4: the fallback
    [int((attempt+1)*backoff*5)] grows by a constant step, it does not
    grow exponentially. *)
Theorem fallback_wait_is_linear :
  map (fun a => rate_limit_wait default_http a None 1736510400) (seq 0 5)
  = [Ok 6; Ok 12; Ok 18; Ok 24; Ok 30] /\
  map (fun a => rate_limit_wait default_http a (Some "soon") 1736510400) (seq 0 5)
  = [Ok 6; Ok 12; Ok 18; Ok 24; Ok 30].
Proof. split; vm_compute; reflexivity. Qed.

(** ** The window filter *)

Ltac div_lia := Z.div_mod_to_equations; lia.

(** The date [civil_from_days] computes is a date of the calendar, and it
    is the date of that day: counting the days back gives the argument. *)
Lemma civil_from_days_valid (days : Z) :
  -354285 <= days < 2932897 ->
  exists y m d, civil_from_days days = (y, m, d) /\
    1000 <= y <= 9999 /\ 1 <= m <= 12 /\ 1 <= d <= Iso8601.days_in_month y m /\
    Iso8601.days_from_civil y m d = days.
Proof.
  intros H. unfold civil_from_days, Iso8601.days_from_civil.
  set (z := days + 719468).
  set (era := z / 146097).
  set (doe := z mod 146097).
  set (yoe := (doe - doe / 1460 + doe / 36524 - doe / 146096) / 365).
  set (doy := doe - (365 * yoe + yoe / 4 - yoe / 100)).
  set (mp := (5 * doy + 2) / 153).
  assert (Hdoe : 0 <= doe < 146097) by (apply Z.mod_pos_bound; lia).
  assert (Hyoe : 0 <= yoe <= 399) by (subst yoe; div_lia).
  assert (Hdoy : 0 <= doy <= 365) by (subst doy yoe; div_lia).
  assert (Hmp : 0 <= mp <= 11) by (subst mp; div_lia).
  assert (Hz : z = era * 146097 + doe) by (subst era doe; div_lia).
  assert (Hera : 2 <= era <= 24) by (subst era z; div_lia).
  assert (Hleap : doy = 365 ->
                  (yoe + 1) mod 4 = 0 /\ ((yoe + 1) mod 100 <> 0 \/ yoe = 399)).
  { intros E. subst doy yoe. div_lia. }
  assert (Hyear : (mp < 10 -> 1000 <= yoe + era * 400)
                  /\ 999 <= yoe + era * 400
                  /\ (10 <= mp -> yoe + era * 400 + 1 <= 9999)
                  /\ yoe + era * 400 <= 9999).
  { clear Hleap Hz. subst mp doy yoe era doe z. div_lia. }
  do 3 eexists. split; [reflexivity |].
  destruct (mp <? 10) eqn:E1; [apply Z.ltb_lt in E1 | apply Z.ltb_ge in E1].
  - replace (mp + 3 <=? 2) with false by (symmetry; apply Z.leb_gt; lia).
    replace (2 <? mp + 3) with true by (symmetry; apply Z.ltb_lt; lia).
    rewrite Z.add_0_r.
    replace ((yoe + era * 400) / 400) with era by div_lia.
    replace ((yoe + era * 400) mod 400) with yoe by div_lia.
    replace (mp + 3 - 3) with mp by lia.
    split; [lia |]. split; [lia |]. split.
    + unfold Iso8601.days_in_month.
      assert (Hc : mp = 0 \/ mp = 1 \/ mp = 2 \/ mp = 3 \/ mp = 4 \/ mp = 5
                   \/ mp = 6 \/ mp = 7 \/ mp = 8 \/ mp = 9) by lia.
      clear Hleap Hz Hyear.
      destruct Hc as [Hc | [Hc | [Hc | [Hc | [Hc | [Hc | [Hc | [Hc | [Hc | Hc]]]]]]]]];
        rewrite Hc; simpl; subst mp; div_lia.
    + fold doy. clear Hleap Hyear. subst doy mp. div_lia.
  - replace (mp - 9 <=? 2) with true by (symmetry; apply Z.leb_le; lia).
    replace (2 <? mp - 9) with false by (symmetry; apply Z.ltb_ge; lia).
    replace (yoe + era * 400 + 1 - 1) with (yoe + era * 400) by lia.
    replace ((yoe + era * 400) / 400) with era by div_lia.
    replace ((yoe + era * 400) mod 400) with yoe by div_lia.
    replace (mp - 9 + 9) with mp by lia.
    split; [lia |]. split; [lia |]. split.
    + unfold Iso8601.days_in_month, Iso8601.is_leap.
      assert (Hc : mp = 10 \/ mp = 11) by lia.
      destruct Hc as [Hc | Hc]; rewrite Hc; simpl.
      * clear Hleap Hz Hyear. subst mp. div_lia.
      * assert (Hd : 1 <= doy - 337 + 1 <= 29) by (clear Hleap Hz Hyear; subst mp; div_lia).
        destruct (Z.eq_dec doy 365) as [E | E].
        -- destruct (Hleap E) as [H4 H100].
           replace ((yoe + era * 400 + 1) mod 4 =? 0) with true
             by (symmetry; apply Z.eqb_eq; div_lia).
           destruct H100 as [H100 | H400].
           ++ replace ((yoe + era * 400 + 1) mod 100 =? 0) with false
                by (symmetry; apply Z.eqb_neq; div_lia).
              cbn [negb orb andb]. clear Hleap Hz Hyear. div_lia.
           ++ replace ((yoe + era * 400 + 1) mod 400 =? 0) with true
                by (symmetry; apply Z.eqb_eq; div_lia).
              rewrite orb_true_r. cbn [andb]. clear Hleap Hz Hyear. div_lia.
        -- clear Hleap Hz Hyear. destruct (andb _ _); div_lia.
    + fold doy. clear Hleap Hyear. subst doy mp. div_lia.
Qed.



(** ** Reading back what [_to_utc_iso] wrote *)

Lemma digit_char_facts (d : Z) :
  Py.is_digit (digit_char d) = true /\
  Py.digit_value (digit_char d) = d mod 10 /\
  Ascii.eqb (digit_char d) "Z" = false.
Proof.
  unfold digit_char.
  assert (H : 0 <= d mod 10 < 10) by (apply Z.mod_pos_bound; lia).
  set (k := d mod 10) in *.
  assert (Hk : k = 0 \/ k = 1 \/ k = 2 \/ k = 3 \/ k = 4 \/ k = 5 \/ k = 6
               \/ k = 7 \/ k = 8 \/ k = 9) by lia.
  destruct Hk as [-> | [-> | [-> | [-> | [-> | [-> | [-> | [-> | [-> | ->]]]]]]]]];
    repeat split; reflexivity.
Qed.

Lemma num2_digit_chars (a b : Z) :
  Iso8601.num2 (digit_char a) (digit_char b) = Some (10 * (a mod 10) + b mod 10).
Proof.
  unfold Iso8601.num2.
  destruct (digit_char_facts a) as (-> & -> & _).
  destruct (digit_char_facts b) as (-> & -> & _). reflexivity.
Qed.

Lemma replace_pad2 (n : Z) (rest : string) :
  Py.replace_char "Z" "+00:00" (pad2 n ++ rest)
  = pad2 n ++ Py.replace_char "Z" "+00:00" rest.
Proof.
  unfold pad2. cbn [append Py.replace_char].
  now rewrite !(proj2 (proj2 (digit_char_facts _))).
Qed.

Lemma replace_pad4 (n : Z) (rest : string) :
  Py.replace_char "Z" "+00:00" (pad4 n ++ rest)
  = pad4 n ++ Py.replace_char "Z" "+00:00" rest.
Proof.
  unfold pad4. cbn [append Py.replace_char].
  rewrite !(proj2 (proj2 (digit_char_facts _))). f_equal. f_equal. apply replace_pad2.
Qed.

Lemma read_date_padded (y m d : Z) (rest : string) :
  1000 <= y <= 9999 -> 1 <= m <= 12 -> 1 <= d <= Iso8601.days_in_month y m ->
  Iso8601.read_date (pad4 y ++ String "-" (pad2 m ++ String "-" (pad2 d ++ rest)))
  = Some (Iso8601.days_from_civil y m d, rest).
Proof.
  intros Hy Hm Hd.
  assert (Hd31 : d <= 31).
  { unfold Iso8601.days_in_month in Hd.
    destruct (m =? 2); [destruct (Iso8601.is_leap y) |]; [lia | lia |].
    destruct (orb _ _); lia. }
  unfold pad4, pad2. cbn [append Iso8601.read_date]. rewrite !num2_digit_chars.
  replace (100 * (10 * ((y / 1000) mod 10) + (y / 100) mod 10)
           + (10 * ((y / 10) mod 10) + y mod 10)) with y by div_lia.
  replace (10 * ((m / 10) mod 10) + m mod 10) with m by div_lia.
  replace (10 * ((d / 10) mod 10) + d mod 10) with d by div_lia.
  replace (1 <=? y) with true by (symmetry; apply Z.leb_le; lia).
  replace (1 <=? m) with true by (symmetry; apply Z.leb_le; lia).
  replace (m <=? 12) with true by (symmetry; apply Z.leb_le; lia).
  replace (1 <=? d) with true by (symmetry; apply Z.leb_le; lia).
  replace (d <=? Iso8601.days_in_month y m) with true by (symmetry; apply Z.leb_le; lia).
  reflexivity.
Qed.

Lemma read_time_padded (h n s : Z) (rest : string) :
  0 <= h <= 23 -> 0 <= n <= 59 -> 0 <= s <= 59 ->
  Iso8601.read_time (String "T" (pad2 h ++ String ":" (pad2 n ++ String ":" (pad2 s ++ rest))))
  = Some (h * 3600 + n * 60 + s, rest).
Proof.
  intros Hh Hn Hs. unfold pad2. cbn [append Iso8601.read_time].
  rewrite !num2_digit_chars.
  replace (10 * ((h / 10) mod 10) + h mod 10) with h by div_lia.
  replace (10 * ((n / 10) mod 10) + n mod 10) with n by div_lia.
  replace (10 * ((s / 10) mod 10) + s mod 10) with s by div_lia.
  replace (h <? 24) with true by (symmetry; apply Z.ltb_lt; lia).
  replace (n <? 60) with true by (symmetry; apply Z.ltb_lt; lia).
  replace (s <? 60) with true by (symmetry; apply Z.ltb_lt; lia).
  reflexivity.
Qed.

(** The string [_to_utc_iso] writes for an instant denotes that instant,
    cut to the second. *)
Lemma read_to_utc_iso (dt : Z) :
  year_1000 <= dt < year_10000 ->
  Iso8601.read (Py.replace_char "Z" "+00:00" (_to_utc_iso dt))
  = Some (dt / 1000000 * 1000000).
Proof.
  unfold year_1000, year_10000, _to_utc_iso, microseconds_per_second, seconds_per_day.
  intros H.
  set (secs := dt / 1000000).
  assert (Hdays : -354285 <= secs / 86400 < 2932897) by (subst secs; div_lia).
  destruct (civil_from_days_valid _ Hdays) as (y & m & d & -> & Hy & Hm & Hd & Hback).
  rewrite replace_pad4. cbn [append Py.replace_char Ascii.eqb Bool.eqb].
  rewrite replace_pad2. cbn [append Py.replace_char Ascii.eqb Bool.eqb].
  rewrite replace_pad2. cbn [append Py.replace_char Ascii.eqb Bool.eqb].
  rewrite replace_pad2. cbn [append Py.replace_char Ascii.eqb Bool.eqb].
  rewrite replace_pad2. cbn [append Py.replace_char Ascii.eqb Bool.eqb].
  rewrite replace_pad2. cbn [append Py.replace_char Ascii.eqb Bool.eqb].
  unfold Iso8601.read. rewrite (read_date_padded y m d _ Hy Hm Hd).
  cbn [String.eqb]. rewrite read_time_padded by div_lia.
  cbn. rewrite Hback. f_equal. div_lia.
Qed.


(** With that parser, the default window [main] filters with is the year
    that ends now, both ends cut to the second. *)
Lemma default_window_instants (now : Z) :
  year_1000 + timedelta_days 365 <= now < year_10000 ->
  window_of (D := Iso8601.datetime) None None now
  = Ok (Some ((now - timedelta_days 365) / 1000000 * 1000000),
        Some (now / 1000000 * 1000000)).
Proof.
  intros H. unfold window_of, normalize_window. cbn [bind fst snd].
  assert (Htruthy : forall dt, Py.truthy (Some (_to_utc_iso dt)) = true).
  { intros dt. unfold _to_utc_iso. destruct (civil_from_days _) as [[y m] d].
    reflexivity. }
  unfold _parse_iso. rewrite !Htruthy.
  change (@fromisoformat_utc Iso8601.datetime) with Iso8601.read.
  rewrite !read_to_utc_iso; [reflexivity | |];
    unfold year_1000, year_10000, timedelta_days, seconds_per_day,
      microseconds_per_second in *; lia.
Qed.

Section WindowFilter.
Context {D : Datetime}.





End WindowFilter.



(** ** Link headers: parsing what the server rendered *)

Section StringFacts.

Lemma all_chars_app (p : ascii -> bool) (a b : string) :
  Py.all_chars p (a ++ b) = andb (Py.all_chars p a) (Py.all_chars p b).
Proof.
  induction a as [| c a IH]; simpl; [reflexivity |]. now rewrite IH, andb_assoc.
Qed.

Lemma all_chars_weaken (p q : ascii -> bool) (s : string) :
  (forall c, p c = true -> q c = true) ->
  Py.all_chars p s = true -> Py.all_chars q s = true.
Proof.
  intros Hpq. induction s as [| c s IH]; simpl; [easy |].
  rewrite !andb_true_iff. intros [Hc Hs]. auto.
Qed.

Lemma append_assoc (a b c : string) : (a ++ b) ++ c = a ++ (b ++ c).
Proof. induction a as [| x a IH]; simpl; [reflexivity | now rewrite IH]. Qed.

(** Splitting a string that holds no separator gives the string. *)
Lemma split_without_sep (sep : ascii) (s : string) :
  Py.all_chars (fun c => negb (Ascii.eqb c sep)) s = true ->
  Py.split sep s = [s].
Proof.
  induction s as [| c s IH]; simpl; [reflexivity |].
  rewrite andb_true_iff. intros [Hc Hs]. apply negb_true_iff in Hc.
  now rewrite Hc, (IH Hs).
Qed.

(** Splitting at the first separator. *)
Lemma split_at_first_sep (sep : ascii) (a b : string) :
  Py.all_chars (fun c => negb (Ascii.eqb c sep)) a = true ->
  Py.split sep (a ++ String sep b) = a :: Py.split sep b.
Proof.
  induction a as [| c a IH]; simpl.
  - intros _. now rewrite Ascii.eqb_refl.
  - rewrite andb_true_iff. intros [Hc Ha]. apply negb_true_iff in Hc.
    now rewrite Hc, (IH Ha).
Qed.

Lemma rstrip_by_kept (p : ascii -> bool) (s : string) (c : ascii) :
  p c = false -> Py.rstrip_by p (s ++ String c "") = s ++ String c "".
Proof.
  intros Hc. induction s as [| a s IH]; simpl.
  - now rewrite Hc.
  - rewrite IH. now destruct s.
Qed.

Lemma rstrip_by_last (p : ascii -> bool) (s : string) (c : ascii) :
  p c = true ->
  Py.all_chars (fun a => negb (p a)) s = true ->
  Py.rstrip_by p (s ++ String c "") = s.
Proof.
  intros Hc. induction s as [| a s IH]; simpl.
  - now rewrite Hc.
  - rewrite andb_true_iff. intros [Ha Hs]. apply negb_true_iff in Ha.
    rewrite (IH Hs). destruct s; [now rewrite Ha | reflexivity].
Qed.

Lemma lstrip_by_kept (p : ascii -> bool) (s : string) (c : ascii) :
  Py.all_chars (fun a => negb (p a)) s = true ->
  p c = false ->
  Py.lstrip_by p (s ++ String c "") = s ++ String c "".
Proof.
  destruct s as [| a s]; simpl.
  - now intros _ ->.
  - rewrite andb_true_iff. intros [Ha _] _. apply negb_true_iff in Ha. now rewrite Ha.
Qed.

Lemma eqb_app_last (r r' : string) (c : ascii) :
  String.eqb (r ++ String c "") (r' ++ String c "") = String.eqb r r'.
Proof.
  revert r'. induction r as [| a r IH]; intros [| a' r']; simpl.
  - now rewrite Ascii.eqb_refl.
  - destruct (Ascii.eqb c a'); [| reflexivity]. now destruct r'.
  - destruct (Ascii.eqb a c); [| reflexivity]. now destruct r.
  - destruct (Ascii.eqb a a'); [apply IH | reflexivity].
Qed.

End StringFacts.

Section LinkHeader.

Lemma render_entry_segments (pfx : string) (e : LinkEntry) :
  pfx ++ render_entry e = (pfx ++ segment0 e) ++ String ";" (String " " (segment1 e)).
Proof.
  unfold render_entry, segment0, segment1. rewrite append_assoc. f_equal.
  simpl. f_equal. now rewrite append_assoc.
Qed.

Lemma entry_ok_target (e : LinkEntry) :
  entry_ok e = true ->
  target e <> "" /\ Py.all_chars url_char (target e) = true
  /\ Py.all_chars token_char (relation e) = true.
Proof.
  unfold entry_ok. rewrite !andb_true_iff, negb_true_iff, String.eqb_neq. tauto.
Qed.

Lemma url_char_not (c : ascii) :
  url_char c = true ->
  is_comma c = false /\ is_semicolon c = false /\ is_lt c = false /\ is_gt c = false.
Proof.
  unfold url_char. rewrite negb_true_iff, !orb_false_iff. tauto.
Qed.

Lemma token_char_not (c : ascii) :
  token_char c = true -> is_comma c = false /\ is_semicolon c = false.
Proof.
  unfold token_char. rewrite negb_true_iff, !orb_false_iff. tauto.
Qed.

(** A rendered entry holds no comma, whatever blank precedes it. *)
Lemma render_entry_no_comma (pfx : string) (e : LinkEntry) :
  pfx = "" \/ pfx = " " ->
  entry_ok e = true ->
  Py.all_chars (fun c => negb (Ascii.eqb c ",")) (pfx ++ render_entry e) = true.
Proof.
  intros Hpfx He. apply entry_ok_target in He as (_ & Ht & Hr).
  assert (Ht' : Py.all_chars (fun c => negb (Ascii.eqb c ",")) (target e) = true).
  { apply (all_chars_weaken url_char); [| exact Ht].
    intros c H. apply negb_true_iff. apply (url_char_not c H). }
  assert (Hr' : Py.all_chars (fun c => negb (Ascii.eqb c ",")) (relation e) = true).
  { apply (all_chars_weaken token_char); [| exact Hr].
    intros c H. apply negb_true_iff. apply (token_char_not c H). }
  unfold render_entry. rewrite !all_chars_app. simpl Py.all_chars.
  rewrite !all_chars_app. simpl Py.all_chars. rewrite Ht', Hr'.
  now destruct Hpfx as [-> | ->].
Qed.

(** The two segments [parse_next_link] sees in a rendered entry. *)
Lemma entry_segments (pfx : string) (e : LinkEntry) :
  pfx = "" \/ pfx = " " ->
  entry_ok e = true ->
  map Py.strip (Py.split ";" (pfx ++ render_entry e)) = [segment0 e; segment1 e].
Proof.
  intros Hpfx He. apply entry_ok_target in He as (_ & Ht & Hr).
  assert (Ht' : Py.all_chars (fun c => negb (Ascii.eqb c ";")) (target e) = true).
  { apply (all_chars_weaken url_char); [| exact Ht].
    intros c H. apply negb_true_iff. apply (url_char_not c H). }
  assert (Hr' : Py.all_chars (fun c => negb (Ascii.eqb c ";")) (relation e) = true).
  { apply (all_chars_weaken token_char); [| exact Hr].
    intros c H. apply negb_true_iff. apply (token_char_not c H). }
  rewrite render_entry_segments, split_at_first_sep.
  - rewrite split_without_sep.
    + cbn [map]. f_equal; [| f_equal].
      * unfold Py.strip, segment0.
        replace (Py.lstrip_by Py.is_space (pfx ++ String "<" (target e ++ String ">" "")))
          with (String "<" (target e) ++ String ">" "")
          by (destruct Hpfx as [-> | ->]; reflexivity).
        now rewrite rstrip_by_kept.
      * unfold Py.strip, segment1.
        replace (Py.lstrip_by Py.is_space (String " " ("rel=" ++ String "034"
                   (relation e ++ String "034" ""))))
          with (("rel=" ++ String "034" (relation e)) ++ String "034" "")
          by reflexivity.
        now rewrite rstrip_by_kept.
    + unfold segment1. simpl Py.all_chars. rewrite all_chars_app, Hr'. reflexivity.
  - unfold segment0. rewrite all_chars_app. simpl Py.all_chars.
    rewrite all_chars_app, Ht'. now destruct Hpfx as [-> | ->].
Qed.

Lemma segment1_is_next (e : LinkEntry) :
  String.eqb (segment1 e) rel_next = String.eqb (relation e) "next".
Proof.
  unfold segment1, rel_next. simpl.
  change (String "n" (String "e" (String "x" (String "t" (String "034" "")))))
    with ("next" ++ String "034" "").
  apply eqb_app_last.
Qed.

Lemma segment0_target (e : LinkEntry) :
  entry_ok e = true ->
  Py.rstrip_by is_gt (Py.lstrip_by is_lt (segment0 e)) = target e.
Proof.
  intros He. apply entry_ok_target in He as (_ & Ht & _).
  unfold segment0. cbn [Py.lstrip_by]. change (is_lt "<") with true. cbv iota.
  rewrite lstrip_by_kept, rstrip_by_last; try reflexivity.
  - apply (all_chars_weaken url_char); [| exact Ht].
    intros c H. apply negb_true_iff. apply (url_char_not c H).
  - apply (all_chars_weaken url_char); [| exact Ht].
    intros c H. apply negb_true_iff. apply (url_char_not c H).
Qed.

Lemma scan_entry (pfx : string) (e : LinkEntry) (rest : list string) :
  pfx = "" \/ pfx = " " ->
  entry_ok e = true ->
  scan_parts ((pfx ++ render_entry e) :: rest)
  = if String.eqb (relation e) "next" then Some (target e) else scan_parts rest.
Proof.
  intros Hpfx He. cbn [scan_parts]. rewrite (entry_segments pfx e Hpfx He).
  rewrite segment1_is_next, (segment0_target e He). reflexivity.
Qed.

Lemma scan_rendered (pfx : string) (es : list LinkEntry) :
  pfx = "" \/ pfx = " " ->
  forallb entry_ok es = true ->
  scan_parts (Py.split "," (pfx ++ render_link es))
  = option_map target (next_entry es).
Proof.
  revert pfx. induction es as [| e es IH]; intros pfx Hpfx Hes.
  - destruct Hpfx as [-> | ->]; reflexivity.
  - cbn [forallb] in Hes. apply andb_true_iff in Hes as [He Hes].
    unfold next_entry. cbn [find]. fold (next_entry es).
    destruct es as [| e' es'].
    + change (render_link [e]) with (render_entry e).
      rewrite split_without_sep by now apply render_entry_no_comma.
      rewrite (scan_entry pfx e [] Hpfx He).
      now destruct (String.eqb (relation e) "next").
    + change (render_link (e :: e' :: es'))
        with (render_entry e ++ String "," (" " ++ render_link (e' :: es'))).
      rewrite <- append_assoc.
      rewrite split_at_first_sep by now apply render_entry_no_comma.
      rewrite (scan_entry pfx e _ Hpfx He).
      destruct (String.eqb (relation e) "next"); [reflexivity |].
      apply IH; auto.
Qed.

(** On a header the server rendered from well-formed entries,
    [parse_next_link] returns the target of the first entry whose relation
    is [next], and [None] when there is none. *)
Lemma parse_next_link_rendered (es : list LinkEntry) :
  forallb entry_ok es = true ->
  parse_next_link (Some (render_link es)) = option_map target (next_entry es).
Proof.
  intros Hes. unfold parse_next_link.
  destruct (Py.truthy (Some (render_link es))) eqn:Htr.
  - apply (scan_rendered "" es); auto.
  - destruct es as [| e es]; [reflexivity |].
    exfalso. unfold Py.truthy in Htr.
    destruct es; simpl in Htr; discriminate Htr.
Qed.

End LinkHeader.

(** ** The paginator *)

Section Pagination.
Variable fetch : request -> result Response.

Lemma next_of_links (resp : Response) (es : list LinkEntry) :
  has_links resp es ->
  parse_next_link (link resp) = option_map target (next_entry es).
Proof.
  intros [Hes [-> | [-> ->]]]; [| reflexivity].
  now apply parse_next_link_rendered.
Qed.

Lemma next_entry_ok (es : list LinkEntry) (e : LinkEntry) :
  forallb entry_ok es = true -> next_entry es = Some e ->
  Py.truthy (Some (target e)) = true.
Proof.
  intros Hes Hnext. apply find_some in Hnext as [Hin _].
  rewrite forallb_forall in Hes. apply Hes, entry_ok_target in Hin as [Hne _].
  simpl. now destruct (target e).
Qed.

(** The first call of [next] requests the collection with the query
    parameters and yields page 1. *)
Lemma next_created (url : string) (params : Params) (resp : Response)
    (payload : list PullRequest) :
  Py.truthy (Some url) = true ->
  fetch {| req_url := url; req_params := Some params |} = Ok resp ->
  json resp = Some payload ->
  next fetch (Created url params)
  = ([{| req_url := url; req_params := Some params |}],
     Yielded 1 payload, Suspended params 1 resp).
Proof.
  intros Hurl Hf Hj. unfold next, loop_turn. rewrite Hurl. simpl Z.eqb.
  cbv iota. now rewrite Hf, Hj.
Qed.

(** Resumed after a page without a next entry, the generator finishes and
    sends nothing. *)
Lemma next_stops (params : Params) (i : Z) (resp : Response) (es : list LinkEntry) :
  has_links resp es ->
  next_entry es = None ->
  next fetch (Suspended params i resp) = ([], StopIteration, Finished).
Proof.
  intros Hl Hnone. unfold next. rewrite (next_of_links resp es Hl), Hnone. reflexivity.
Qed.

(** Resumed after a page with a next entry, it requests that entry's target,
    without parameters, and yields the page under the next index. *)
Lemma next_continues (params : Params) (i : Z) (resp resp' : Response)
    (es : list LinkEntry) (e : LinkEntry) (payload' : list PullRequest) :
  1 <= i ->
  has_links resp es ->
  next_entry es = Some e ->
  fetch {| req_url := target e; req_params := None |} = Ok resp' ->
  json resp' = Some payload' ->
  next fetch (Suspended params i resp)
  = ([{| req_url := target e; req_params := None |}],
     Yielded (i + 1) payload', Suspended params (i + 1) resp').
Proof.
  intros Hi Hl Hnext Hf Hj. unfold next.
  rewrite (next_of_links resp es Hl), Hnext. cbn [option_map]. unfold loop_turn.
  rewrite (next_entry_ok es e (proj1 Hl) Hnext).
  replace (i + 1 =? 1) with false by (symmetry; apply Z.eqb_neq; lia).
  now rewrite Hf, Hj.
Qed.

End Pagination.

(** C8. The generator yields (page index, payload) pairs: the first call of
    [next] requests the collection with the query parameters and yields
    index 1; each later call, made by the consumer after it was handed the
    previous page, reads that page's Link header and either requests the
    target of its first entry of relation next, yielding the following
    index, or, exactly when there is no such entry, finishes without a
    request. Over three pages of which the first two carry a next entry
    and the third none, a consumer therefore sees request, page 1, request,
    page 2, request, page 3, and then the end. *)
Theorem paginator_follows_next_links (fetch : request -> result Response) :
  (forall url params resp payload,
     Py.truthy (Some url) = true ->
     fetch {| req_url := url; req_params := Some params |} = Ok resp ->
     json resp = Some payload ->
     next fetch (Created url params)
     = ([{| req_url := url; req_params := Some params |}],
        Yielded 1 payload, Suspended params 1 resp)) /\
  (forall params i resp es,
     has_links resp es ->
     (next_entry es = None <->
      next fetch (Suspended params i resp) = ([], StopIteration, Finished))) /\
  (forall params i resp es e resp' payload',
     1 <= i ->
     has_links resp es ->
     next_entry es = Some e ->
     fetch {| req_url := target e; req_params := None |} = Ok resp' ->
     json resp' = Some payload' ->
     next fetch (Suspended params i resp)
     = ([{| req_url := target e; req_params := None |}],
        Yielded (i + 1) payload', Suspended params (i + 1) resp')) /\
  (forall url params r1 r2 r3 p1 p2 p3 es1 es2 es3 e1 e2 fuel,
     Py.truthy (Some url) = true ->
     fetch {| req_url := url; req_params := Some params |} = Ok r1 ->
     json r1 = Some p1 -> has_links r1 es1 -> next_entry es1 = Some e1 ->
     fetch {| req_url := target e1; req_params := None |} = Ok r2 ->
     json r2 = Some p2 -> has_links r2 es2 -> next_entry es2 = Some e2 ->
     fetch {| req_url := target e2; req_params := None |} = Ok r3 ->
     json r3 = Some p3 -> has_links r3 es3 -> next_entry es3 = None ->
     (4 <= fuel)%nat ->
     consume fetch fuel (Created url params)
     = ([ Fetch {| req_url := url; req_params := Some params |}; Page 1 p1;
          Fetch {| req_url := target e1; req_params := None |}; Page 2 p2;
          Fetch {| req_url := target e2; req_params := None |}; Page 3 p3 ],
        true)).
Proof.
  split; [apply next_created |].
  split; [| split; [intros; eapply next_continues; eassumption |]].
  - intros params i resp es Hl. split; [now apply next_stops |].
    intros Hstop. destruct (next_entry es) as [e |] eqn:Hnext; [| reflexivity].
    exfalso. unfold next in Hstop.
    rewrite (next_of_links resp es Hl), Hnext in Hstop. cbn [option_map] in Hstop.
    unfold loop_turn in Hstop. rewrite (next_entry_ok es e (proj1 Hl) Hnext) in Hstop.
    destruct (fetch _) as [r |]; [destruct (json r) |]; discriminate Hstop.
  - intros url params r1 r2 r3 p1 p2 p3 es1 es2 es3 e1 e2 fuel
      Hurl Hf1 Hj1 Hl1 Hn1 Hf2 Hj2 Hl2 Hn2 Hf3 Hj3 Hl3 Hn3 Hfuel.
    do 4 (destruct fuel as [| fuel]; [lia |]).
    cbn [consume]. rewrite (next_created fetch url params r1 p1 Hurl Hf1 Hj1).
    cbn [consume]. rewrite (next_continues fetch params 1 r1 r2 es1 e1 p2
                              ltac:(lia) Hl1 Hn1 Hf2 Hj2).
    cbn [consume]. rewrite (next_continues fetch params (1 + 1) r2 r3 es2 e2 p3
                              ltac:(lia) Hl2 Hn2 Hf3 Hj3).
    rewrite (next_stops fetch params (1 + 1 + 1) r3 es3 Hl3 Hn3).
    reflexivity.
Qed.

Lemma paginator_follows_next_links_witness :
  consume Sample.three_pages 10 (list_closed_pr_pages "octo" "repo" 100)
  = ([ Fetch {| req_url := pulls_url "octo" "repo";
                req_params := Some (closed_pr_params 100) |};
       Page 1 [Sample.pr42];
       Fetch {| req_url := Sample.page2_url; req_params := None |};
       Page 2 [];
       Fetch {| req_url := Sample.page3_url; req_params := None |};
       Page 3 [Sample.pr42; Sample.pr42] ],
     true).
Proof.
  destruct (paginator_follows_next_links Sample.three_pages) as (_ & _ & _ & H).
  apply (H (pulls_url "octo" "repo") (closed_pr_params 100)
           Sample.page1 Sample.page2 Sample.page3 _ _ _
           Sample.links_of_page1 Sample.links_of_page2 Sample.links_of_page3
           {| target := Sample.page2_url; relation := "next" |}
           {| target := Sample.page3_url; relation := "next" |});
    try reflexivity; try (split; [reflexivity | left; reflexivity]).
  lia.
Defined.

(** * Further properties of the code *)

(** ** Required contexts *)

Section RequiredContexts.

Lemma existsb_eqb_in (x : string) (seen : list string) :
  existsb (String.eqb x) seen = true <-> In x seen.
Proof.
  rewrite existsb_exists. split.
  - intros (y & Hy & E). apply String.eqb_eq in E. now subst.
  - intros H. exists x. split; [exact H | apply String.eqb_refl].
Qed.

Lemma in_dedup_from (x : string) (seen l : list string) :
  In x (dedup_from seen l) <-> In x l /\ ~ In x seen.
Proof.
  revert seen. induction l as [| y l IH]; intros seen; simpl; [tauto |].
  destruct (existsb (String.eqb y) seen) eqn:E.
  - apply existsb_eqb_in in E. rewrite IH. split.
    + intros [H1 H2]. auto.
    + intros [[-> | H1] H2]; [contradiction | auto].
  - assert (Hy : ~ In y seen).
    { intros H. apply existsb_eqb_in in H. congruence. }
    simpl. rewrite IH. simpl. split.
    + intros [<- | [H1 H2]]; [auto | split; [auto | tauto]].
    + intros [[<- | H1] H2]; [auto |].
      destruct (String.eqb_spec y x) as [-> | Hne]; [auto |].
      right. split; [exact H1 |]. intros [E' | H]; congruence || contradiction.
Qed.

Lemma nodup_dedup_from (seen l : list string) : NoDup (dedup_from seen l).
Proof.
  revert seen. induction l as [| y l IH]; intros seen; simpl; [constructor |].
  destruct (existsb (String.eqb y) seen); [apply IH |].
  constructor; [| apply IH]. rewrite in_dedup_from. simpl. tauto.
Qed.

Lemma truthy_nonempty (s : string) : Py.truthy (Some s) = true <-> s <> "".
Proof. destruct s; simpl; split; congruence. Qed.

Lemma in_check_contexts (s : string) (cs : list RequiredCheck) :
  In s (check_contexts cs) <->
  s <> "" /\ exists c, In c cs /\ rc_context c = Str s.
Proof.
  induction cs as [| c cs IH]; simpl.
  - split; [tauto | intros (_ & c & [] & _)].
  - destruct (rc_context c) as [| | t] eqn:E; simpl.
    + rewrite IH. split; intros (Hs & c' & Hc & Hc'); (split; [exact Hs |]).
      * exists c'. auto.
      * destruct Hc as [<- | Hc]; [congruence | eauto].
    + rewrite IH. split; intros (Hs & c' & Hc & Hc'); (split; [exact Hs |]).
      * exists c'. auto.
      * destruct Hc as [<- | Hc]; [congruence | eauto].
    + destruct t as [| a t'].
      * simpl. rewrite IH. split; intros (Hs & c' & Hc & Hc'); (split; [exact Hs |]).
        -- exists c'. auto.
        -- destruct Hc as [<- | Hc]; [| eauto].
           rewrite E in Hc'. injection Hc' as <-. congruence.
      * simpl. rewrite IH. split.
        -- intros [<- | (Hs & c' & Hc & Hc')].
           ++ split; [discriminate | exists c; auto].
           ++ split; [exact Hs | exists c'; auto].
        -- intros (Hs & c' & [<- | Hc] & Hc').
           ++ left. rewrite E in Hc'. now injection Hc'.
           ++ right. eauto.
Qed.

End RequiredContexts.

(** X1. [required_contexts_from_protection] returns each name once, never
    the empty string, and exactly the non-empty names the payload lists
    under [contexts] or as the [context] of an entry of [checks]; without a
    payload it returns nothing. *)
Theorem required_contexts_are_the_listed_names
    (required : option RequiredStatusChecks) (name : string) :
  NoDup (required_contexts_from_protection required) /\
  (In name (required_contexts_from_protection required) <->
   name <> "" /\
   exists req, required = Some req /\
     ((exists l, contexts req = Some l /\ In name l) \/
      (exists l c, checks req = Some l /\ In c l /\ rc_context c = Str name))).
Proof.
  unfold required_contexts_from_protection, dict_fromkeys.
  split; [apply nodup_dedup_from |].
  rewrite in_dedup_from. destruct required as [req |].
  - destruct (contexts req) as [lc |] eqn:Ec, (checks req) as [lk |] eqn:Ek;
      rewrite in_app_iff, ?filter_In, ?truthy_nonempty, ?in_check_contexts;
      cbn [In]; split.
    + intros [[[H1 H2] | (H1 & c & Hc & Hc')] _]; (split; [assumption |]);
        exists req; (split; [reflexivity |]); [left | right]; eauto.
    + intros (Hne & req' & [= <-] & [(l & E & Hl) | (l & c & E & Hc & Hc')]);
        (split; [| tauto]); [left | right].
      * rewrite Ec in E. injection E as <-. auto.
      * rewrite Ek in E. injection E as <-. eauto.
    + intros [[[H1 H2] | []] _]. split; [assumption |]. exists req. eauto.
    + intros (Hne & req' & [= <-] & [(l & E & Hl) | (l & c & E & _)]);
        [| congruence]. split; [| tauto]. left.
      rewrite Ec in E. injection E as <-. auto.
    + intros [[[] | (H1 & c & Hc & Hc')] _]. split; [assumption |].
      exists req. split; [reflexivity |]. right. eauto.
    + intros (Hne & req' & [= <-] & [(l & E & _) | (l & c & E & Hc & Hc')]);
        [congruence |]. split; [| tauto]. right.
      rewrite Ek in E. injection E as <-. eauto.
    + intros [[[] | []] _].
    + intros (Hne & req' & [= <-] & [(l & E & _) | (l & c & E & _)]); congruence.
  - simpl. split; [tauto | intros (_ & req & E & _); discriminate].
Qed.

Lemma check_contexts_of_names (names : list string) :
  check_contexts (map (fun n => {| rc_context := Str n |}) names)
  = filter (fun c => Py.truthy (Some c)) names.
Proof.
  induction names as [| n names IH]; simpl; [reflexivity |].
  rewrite IH. now destruct n.
Qed.

(** X2. The two shapes of the branch-protection payload are read alike: a
    list of names under [contexts] and the same names as the [context] of
    the entries of [checks] give the same required contexts. *)
Theorem required_contexts_shape_independent (names : list string) :
  required_contexts_from_protection
    (Some {| contexts := Some names; checks := None |})
  = required_contexts_from_protection
      (Some {| contexts := None;
               checks := Some (map (fun n => {| rc_context := Str n |}) names) |}).
Proof.
  unfold required_contexts_from_protection. cbn [contexts checks].
  now rewrite check_contexts_of_names, app_nil_r.
Qed.

Lemma forallb_same_elements {A : Type} (f : A -> bool) (l l' : list A) :
  (forall x, In x l <-> In x l') -> forallb f l = forallb f l'.
Proof.
  intros H. destruct (forallb f l) eqn:E; symmetry.
  - rewrite forallb_forall in *. intros x Hx. apply E, H, Hx.
  - apply not_true_is_false. intros E'. rewrite forallb_forall in E'.
    assert (forallb f l = true) by (apply forallb_forall; intros x Hx; apply E', H, Hx).
    congruence.
Qed.

(** X3. CHECKS_PASSED does not depend on the order in which the
    branch-protection payload lists the required contexts, nor on how often
    it lists one: two well-formed records that differ only in that payload,
    the two payloads naming the same contexts, get the same verdict. *)
Theorem checks_ignore_order_of_required_contexts {D : Datetime} (it1 it2 : Item) :
  well_formed it1 = true ->
  pr it1 = pr it2 ->
  reviews it1 = reviews it2 ->
  combined_status it1 = combined_status it2 ->
  item_check_runs it1 = item_check_runs it2 ->
  (forall name,
     In name (required_contexts_from_protection (required_status_checks it1)) <->
     In name (required_contexts_from_protection (required_status_checks it2))) ->
  exists row1 row2,
    compute_row it1 = Ok row1 /\ compute_row it2 = Ok row2 /\
    CHECKS_PASSED row1 = CHECKS_PASSED row2.
Proof.
  intros Hwf1 Hpr Hrev Hcs Hruns Hsame.
  assert (Hwf2 : well_formed it2 = true).
  { unfold well_formed, reviews_of, statuses_of, runs_of in *.
    now rewrite <- Hpr, <- Hrev, <- Hcs, <- Hruns. }
  destruct (compute_row_ok it1 Hwf1) as (row1 & Hrow1 & _ & Hck1).
  destruct (compute_row_ok it2 Hwf2) as (row2 & Hrow2 & _ & Hck2).
  exists row1, row2. repeat (split; [assumption |]).
  rewrite Hck1, Hck2. unfold checks_verdict, combined_success, statuses_of, runs_of.
  rewrite <- Hpr, <- Hcs, <- Hruns.
  destruct (required_contexts_from_protection (required_status_checks it1)) as [| a l1] eqn:E1,
           (required_contexts_from_protection (required_status_checks it2)) as [| b l2] eqn:E2.
  - reflexivity.
  - destruct (proj2 (Hsame b) (or_introl eq_refl)).
  - destruct (proj1 (Hsame a) (or_introl eq_refl)).
  - now apply forallb_same_elements.
Qed.

Lemma checks_ignore_order_of_required_contexts_witness :
  exists row1 row2,
    compute_row (D := Iso8601.datetime) Sample.missing_context_item = Ok row1 /\
    compute_row (D := Iso8601.datetime)
      {| pr := Sample.pr42;
         reviews := Some [Sample.approval];
         combined_status :=
           Some {| state := Str "success"; statuses := Some [Sample.build_ok] |};
         item_check_runs := None;
         required_status_checks :=
           Some {| contexts := Some ["ci/test"; "ci/build"];
                   checks := Some [ {| rc_context := Str "ci/test" |} ] |} |} = Ok row2 /\
    CHECKS_PASSED row1 = CHECKS_PASSED row2.
Proof.
  apply (checks_ignore_order_of_required_contexts (D := Iso8601.datetime));
    try reflexivity.
  intros name. simpl. tauto.
Defined.

(** ** Reviews with timestamps the parser rejects *)

(** X4. [review_approved_before_merge] answers at the first review that
    qualifies: once the reviews up to an approving, timely one parse, the
    verdict is true whatever follows, reviews with unreadable timestamps
    included. *)
Theorem first_qualifying_review_decides {D : Datetime}
    (pre post : list Review) (r : Review) (merged : option Z) :
  forallb (fun x => timestamp_ok (submitted_at x)) pre = true ->
  timestamp_ok (submitted_at r) = true ->
  approves merged r = true ->
  review_approved_before_merge (pre ++ r :: post)%list merged = Ok true.
Proof.
  intros Hpre Hr Happ. induction pre as [| x pre IH]; cbn [app review_approved_before_merge].
  - unfold approves in Happ. apply andb_true_iff in Happ as [Hst Hle].
    unfold APPROVED. rewrite Hst, (parse_iso_instant _ Hr). cbn [bind].
    now rewrite none_or_le_not_after, Hle.
  - cbn [forallb] in Hpre. apply andb_true_iff in Hpre as [Hx Hpre].
    destruct (Py.eq_lit (get (r_state x)) APPROVED); [| auto].
    rewrite (parse_iso_instant _ Hx). cbn [bind].
    destruct (none_or_le _ _); auto.
Qed.

Lemma first_qualifying_review_decides_witness :
  review_approved_before_merge (D := Iso8601.datetime)
    ([Sample.comment; Sample.late_approval] ++ Sample.approval
       :: [ {| r_state := Str "APPROVED"; submitted_at := Str "yesterday" |} ])%list
    (Some 1736510400000000)
  = Ok true.
Proof.
  apply (first_qualifying_review_decides (D := Iso8601.datetime));
    vm_compute; reflexivity.
Defined.

(** X5. An approving review whose submitted-at the parser rejects makes
    [review_approved_before_merge] raise ValueError when no review before
    it qualifies, whatever follows it. *)
Theorem unreadable_approval_raises {D : Datetime}
    (pre post : list Review) (r : Review) (merged : option Z) :
  forallb (fun x => timestamp_ok (submitted_at x)) pre = true ->
  existsb (approves merged) pre = false ->
  get (r_state r) = Some "APPROVED" ->
  timestamp_ok (submitted_at r) = false ->
  review_approved_before_merge (pre ++ r :: post)%list merged = Raise ValueError.
Proof.
  intros Hpre Hnone Hst Hr. induction pre as [| x pre IH];
    cbn [app review_approved_before_merge].
  - rewrite Hst. cbn [Py.eq_lit]. unfold APPROVED. rewrite String.eqb_refl.
    now rewrite (parse_iso_rejects _ Hr).
  - cbn [forallb existsb] in *. apply andb_true_iff in Hpre as [Hx Hpre].
    apply orb_false_iff in Hnone as [Hax Hnone]. unfold approves in Hax.
    unfold APPROVED.
    destruct (Py.eq_lit (get (r_state x)) "APPROVED"); [| auto].
    rewrite (parse_iso_instant _ Hx). cbn [bind]. cbn [andb] in Hax.
    rewrite none_or_le_not_after, Hax. auto.
Qed.

Lemma unreadable_approval_raises_witness :
  review_approved_before_merge (D := Iso8601.datetime)
    ([Sample.comment; Sample.late_approval]
       ++ {| r_state := Str "APPROVED"; submitted_at := Str "yesterday" |}
       :: [Sample.approval])%list
    (Some 1736510400000000)
  = Raise ValueError.
Proof.
  apply (unreadable_approval_raises (D := Iso8601.datetime));
    vm_compute; reflexivity.
Defined.

(** ** Check runs on the strict path *)

(** X6. [compute_row] evaluates the check runs before it chooses a path: when
    the merged-at and the reviews parse and the check-run evaluation raises
    (a passing conclusion with an unreadable completed-at), [compute_row]
    raises the same exception, on the strict path too, where the check
    runs have no part in the verdict. *)
Theorem check_run_error_reaches_every_path {D : Datetime} (it : Item) (e : exn) :
  timestamp_ok (merged_at (pr it)) = true ->
  forallb (fun r => timestamp_ok (submitted_at r)) (reviews_of it) = true ->
  all_check_runs_passed_before_merge (item_check_runs it)
    (instant_of (merged_at (pr it))) = Raise e ->
  compute_row it = Raise e.
Proof.
  intros Hm Hrev Hruns. unfold compute_row.
  rewrite parse_iso_get_default, (parse_iso_instant _ Hm). cbn [bind].
  fold (reviews_of it). rewrite (review_approved_existsb _ _ Hrev). cbn [bind].
  now rewrite Hruns.
Qed.

Lemma check_run_error_reaches_every_path_witness :
  compute_row (D := Iso8601.datetime)
    {| pr := Sample.pr42;
       reviews := Some [Sample.approval];
       combined_status :=
         Some {| state := Str "success"; statuses := Some [Sample.build_ok] |};
       item_check_runs :=
         Some {| check_runs :=
                   Some [ {| conclusion := Str "success";
                             completed_at := Str "10/01/2025" |} ] |};
       required_status_checks := Sample.requires ["ci/build"] |}
  = Raise ValueError.
Proof.
  apply (check_run_error_reaches_every_path (D := Iso8601.datetime));
    vm_compute; reflexivity.
Defined.

(** ** Status entries with a null updated-at *)

Lemma forallb_false_in {A : Type} (f : A -> bool) (l : list A) (x : A) :
  In x l -> f x = false -> forallb f l = false.
Proof.
  intros Hin Hx. apply not_true_is_false. intros H.
  rewrite forallb_forall in H. rewrite (H x Hin) in Hx. discriminate.
Qed.

(** X7. A [null] under [updated_at] cannot be compared by the sort: with two
    or more status entries of the required context, one of them holding
    [null] there, [latest_context_state_before_merge] raises TypeError. A
    single matching entry is not compared at all, and with [null] there and
    state success it passes, its timestamp counting as missing. *)
Theorem null_updated_at_breaks_the_sort {D : Datetime}
    (cs : option CombinedStatus) (ctx : string) (merged : option Z) :
  (forall s,
     (2 <= List.length (matching ctx (statuses_in cs)))%nat ->
     In s (matching ctx (statuses_in cs)) ->
     updated_at s = Null ->
     latest_context_state_before_merge cs ctx merged = Raise TypeError) /\
  (forall s,
     matching ctx (statuses_in cs) = [s] ->
     updated_at s = Null ->
     latest_context_state_before_merge cs ctx merged
     = Ok (Py.eq_lit (get (s_state s)) "success")).
Proof.
  unfold latest_context_state_before_merge. fold (statuses_in cs). split.
  - intros s Hlen Hin Hnull.
    destruct (matching ctx (statuses_in cs)) as [| a [| b l]] eqn:E;
      [simpl in Hlen; lia | simpl in Hlen; lia |].
    unfold sort_newest_first.
    rewrite (forallb_false_in _ _ s Hin); [reflexivity |].
    unfold sort_key. now rewrite Hnull.
  - intros s -> Hnull. cbn [sort_newest_first bind]. rewrite Hnull. cbn [get].
    destruct (Py.eq_lit (get (s_state s)) "success"); reflexivity.
Qed.

Lemma null_updated_at_breaks_the_sort_witness :
  latest_context_state_before_merge (D := Iso8601.datetime)
    (Some {| state := Str "success";
             statuses :=
               Some [ Sample.build_ok; Sample.lint_ok;
                      {| context := Str "ci/build"; s_state := Str "success";
                         updated_at := Null |} ] |})
    "ci/build" (Some 1736510400000000)
  = Raise TypeError.
Proof.
  destruct (null_updated_at_breaks_the_sort (D := Iso8601.datetime)
              (Some {| state := Str "success";
                       statuses :=
                         Some [ Sample.build_ok; Sample.lint_ok;
                                {| context := Str "ci/build"; s_state := Str "success";
                                   updated_at := Null |} ] |})
              "ci/build" (Some 1736510400000000)) as [H _].
  apply (H {| context := Str "ci/build"; s_state := Str "success"; updated_at := Null |}).
  - simpl. lia.
  - simpl. right. left. reflexivity.
  - reflexivity.
Defined.

(** ** The two spellings of UTC *)

Lemma replace_char_absent (old : ascii) (new s : string) :
  Py.all_chars (fun c => negb (Ascii.eqb c old)) s = true ->
  Py.replace_char old new s = s.
Proof.
  induction s as [| c s IH]; simpl; [reflexivity |].
  rewrite andb_true_iff. intros [Hc Hs]. apply negb_true_iff in Hc.
  now rewrite Hc, (IH Hs).
Qed.

Lemma replace_char_app (old : ascii) (new a b : string) :
  Py.replace_char old new (a ++ b)
  = Py.replace_char old new a ++ Py.replace_char old new b.
Proof.
  induction a as [| c a IH]; simpl; [reflexivity |].
  destruct (Ascii.eqb c old); rewrite IH; [now rewrite append_assoc | reflexivity].
Qed.

(** X8. [parse_iso] reads a timestamp ending in [Z] exactly as it reads the
    same timestamp ending in [+00:00]: same instant, or ValueError for
    both. *)
Theorem zulu_suffix_is_utc_offset {D : Datetime} (stem : string) :
  Py.all_chars (fun c => negb (Ascii.eqb c "Z")) stem = true ->
  parse_iso (Some (stem ++ "Z")) = parse_iso (Some (stem ++ "+00:00")).
Proof.
  intros H. unfold parse_iso.
  replace (Py.truthy (Some (stem ++ "Z"))) with true by (now destruct stem).
  replace (Py.truthy (Some (stem ++ "+00:00"))) with true by (now destruct stem).
  rewrite !replace_char_app, (replace_char_absent _ _ stem H). reflexivity.
Qed.

Lemma zulu_suffix_is_utc_offset_witness :
  parse_iso (D := Iso8601.datetime) (Some ("2025-01-10T12:00:00" ++ "Z"))
  = parse_iso (D := Iso8601.datetime) (Some ("2025-01-10T12:00:00" ++ "+00:00")).
Proof.
  apply (zulu_suffix_is_utc_offset (D := Iso8601.datetime)). reflexivity.
Defined.

(** ** [safe_get] *)

(** From a value that is not a dictionary [safe_get] can only return that
    value (no key asked) or the default. *)
Lemma safe_get_from_non_dict (v : Dynamic.json) (keys : list string)
    (default : Dynamic.json) :
  Dynamic.is_dict v = false ->
  Dynamic.safe_get v keys default = match keys with [] => v | _ => default end.
Proof. destruct keys as [| k rest], v; simpl; congruence. Qed.

(** X9. With a default that is not a dictionary, [safe_get] walks a path in
    stages: looking up a path equals looking up its first part and then the
    rest in what was found, a missing key or a non-dictionary on the way
    giving the default in both cases. *)
Theorem safe_get_composes (d : Dynamic.json) (keys1 keys2 : list string)
    (default : Dynamic.json) :
  Dynamic.is_dict default = false ->
  Dynamic.safe_get d (keys1 ++ keys2)%list default
  = Dynamic.safe_get (Dynamic.safe_get d keys1 default) keys2 default.
Proof.
  intros Hdef. revert d. induction keys1 as [| k keys1 IH]; intros d; [reflexivity |].
  cbn [app Dynamic.safe_get]. destruct d; try apply IH;
    rewrite (safe_get_from_non_dict default keys2 default Hdef);
    now destruct keys2.
Qed.

Lemma safe_get_composes_witness :
  Dynamic.safe_get
    (Dynamic.JDict
       [("pr", Dynamic.JDict [("number", Dynamic.JNum 42)]);
        ("combined_status", Dynamic.JDict [("statuses", Dynamic.JList [])])])
    (["combined_status"] ++ ["state"])%list (Dynamic.JStr "unknown")
  = Dynamic.safe_get
      (Dynamic.safe_get
         (Dynamic.JDict
            [("pr", Dynamic.JDict [("number", Dynamic.JNum 42)]);
             ("combined_status", Dynamic.JDict [("statuses", Dynamic.JList [])])])
         ["combined_status"] (Dynamic.JStr "unknown"))
      ["state"] (Dynamic.JStr "unknown").
Proof. apply safe_get_composes. reflexivity. Defined.

(** X10. The typed reading of the combined state is what [safe_get]
    computes on the decoded record: for a dictionary holding the record's
    [combined_status], [safe_get(item, "combined_status", "state",
    default="unknown")] is the value [compute_row] tests against the
    success states, with "unknown" for a missing record or key and [None]
    for a [null] state. *)
Theorem combined_state_is_safe_get (items : list (string * Dynamic.json)) (it : Item) :
  holds_combined_status items (combined_status it) ->
  Dynamic.safe_get (Dynamic.JDict items) ["combined_status"; "state"]
    (Dynamic.JStr "unknown")
  = json_of_value (combined_state_of it).
Proof.
  unfold holds_combined_status, combined_state_of. cbn [Dynamic.safe_get].
  unfold Dynamic.dict_get.
  destruct (combined_status it) as [c |].
  - intros (inner & -> & Hst). rewrite Hst. now destruct (state c).
  - now intros ->.
Qed.

Lemma combined_state_is_safe_get_witness :
  Dynamic.safe_get
    (Dynamic.JDict
       [("pr", Dynamic.JDict [("number", Dynamic.JNum 42)]);
        ("combined_status",
         Dynamic.JDict [("state", Dynamic.JStr "success");
                        ("statuses", Dynamic.JList [])])])
    ["combined_status"; "state"] (Dynamic.JStr "unknown")
  = json_of_value (combined_state_of Sample.strict_item).
Proof.
  apply combined_state_is_safe_get. simpl.
  exists [("state", Dynamic.JStr "success"); ("statuses", Dynamic.JList [])].
  split; reflexivity.
Defined.

(** ** The identity fields of the row *)

(** X11. The identity fields of the row come from the pull request alone:
    the number and the merged-at string are carried over as they are, and
    the merge commit is [merge_commit_sha] unless that is missing, [null]
    or empty, in which case it is the head's [sha] (the empty string
    without one). Reviews, statuses, check runs and branch protection have
    no part in them. *)
Theorem identity_fields_come_from_the_pr {D : Datetime} (it : Item) (row : Row) :
  compute_row it = Ok row ->
  row_number row = number (pr it) /\
  row_merged_at row = get_default (merged_at (pr it)) "" /\
  row_title row = get_default (title (pr it)) "" /\
  (forall s, merge_commit_sha (pr it) = Str s -> s <> "" ->
             row_merge_commit row = Some s) /\
  (Py.truthy (get (merge_commit_sha (pr it))) = false ->
   row_merge_commit row
   = match head (pr it) with
     | Some h => get_default (sha h) ""
     | None => Some ""
     end) /\
  (forall it' row',
     pr it' = pr it -> compute_row it' = Ok row' ->
     row_number row' = row_number row /\ row_title row' = row_title row /\
     row_author row' = row_author row /\ row_base row' = row_base row /\
     row_head row' = row_head row /\ row_merge_commit row' = row_merge_commit row /\
     row_merged_at row' = row_merged_at row).
Proof.
  assert (Hshape : forall i r, compute_row i = Ok r ->
    row_number r = number (pr i) /\
    row_title r = get_default (title (pr i)) "" /\
    row_author r = nested_get (user (pr i)) login /\
    row_base r = nested_get (base (pr i)) ref /\
    row_head r = nested_get (head (pr i)) ref /\
    row_merge_commit r
    = (if Py.truthy (get (merge_commit_sha (pr i))) then get (merge_commit_sha (pr i))
       else nested_get (head (pr i)) sha) /\
    row_merged_at r = get_default (merged_at (pr i)) "").
  { intros i r. unfold compute_row.
    destruct (parse_iso _) as [m |]; [| discriminate]. cbn [bind].
    destruct (review_approved_before_merge _ _) as [b |]; [| discriminate]. cbn [bind].
    destruct (all_check_runs_passed_before_merge _ _) as [ro |]; [| discriminate].
    cbn [bind].
    destruct (match required_contexts_from_protection _ with [] => _ | _ :: _ => _ end)
      as [ck |]; [| discriminate].
    cbn [bind]. intros [= <-]. cbn. repeat split. }
  intros Hrow. destruct (Hshape it row Hrow) as (Hn & Ht & Ha & Hb & Hh & Hm & Hat).
  do 3 (split; [assumption |]).
  split; [| split].
  - intros s Hs Hne. rewrite Hm, Hs. cbn [get]. now destruct s.
  - intros Hf. rewrite Hm, Hf. reflexivity.
  - intros it' row' Hpr Hrow'.
    destruct (Hshape it' row' Hrow') as (Hn' & Ht' & Ha' & Hb' & Hh' & Hm' & Hat').
    rewrite Hn', Ht', Ha', Hb', Hh', Hm', Hat', Hn, Ht, Ha, Hb, Hh, Hm, Hat, Hpr.
    repeat split.
Qed.

Lemma identity_fields_come_from_the_pr_witness :
  row_number
    {| row_number := 42; row_title := Some "Add audit"; row_author := Some "kerry";
       row_base := Some "main"; row_head := Some "feature";
       row_merge_commit := Some "def456";
       row_merged_at := Some "2025-01-10T12:00:00Z";
       CR_PASSED := true; CHECKS_PASSED := true |}
  = number (pr Sample.strict_item).
Proof.
  refine (proj1 (identity_fields_come_from_the_pr (D := Iso8601.datetime)
                   Sample.strict_item _ _)).
  vm_compute. reflexivity.
Defined.

(** ** More on the retry loop *)

Lemma get_loop_returns_a_success (http : GitHubHTTP) (server : nat -> Response)
    (clock : nat -> Z) (os : nat -> Z -> bool)
    (remaining attempt : nat) (last r : option Response) :
  (forall resp, last = Some resp -> ok resp = false) ->
  snd (get_loop http server clock os remaining attempt last) = Ok r ->
  exists k, (attempt <= k < attempt + remaining)%nat /\
            r = Some (server k) /\ ok (server k) = true.
Proof.
  revert attempt last. induction remaining as [| n IH]; intros attempt last Hlast.
  - cbn [get_loop]. destruct last as [resp |]; [| discriminate].
    unfold io_bind, lift, raise_for_status. rewrite (Hlast resp eq_refl).
    discriminate.
  - cbn [get_loop]. unfold send at 1. unfold io_bind at 1. cbn [fst snd].
    assert (Hnext : forall resp', ok resp' = false ->
              snd (get_loop http server clock os n (S attempt) (Some resp')) = Ok r ->
              exists k, (attempt <= k < attempt + S n)%nat /\
                        r = Some (server k) /\ ok (server k) = true).
    { intros resp' Hresp' H.
      destruct (IH (S attempt) (Some resp')) as (k & Hk & Hr & Hok);
        [now intros ? [= <-] | exact H |].
      exists k. split; [lia | auto]. }
    destruct (rate_limited (server attempt)) eqn:Hrl.
    + apply rate_limited_not_ok in Hrl.
      unfold lift, io_bind at 1. cbn [fst snd].
      destruct (rate_limit_wait _ _ _ _) as [w |]; [| discriminate].
      unfold io_bind at 1.
      destruct (time_sleep_cases (os attempt) w) as [[_ ->] | [_ [e ->]]];
        cbn [fst snd]; [| discriminate].
      apply Hnext, Hrl.
    + destruct (ok (server attempt)) eqn:Hok.
      * cbn. intros [= <-]. exists attempt. split; [lia | auto].
      * unfold lift, io_bind at 1. cbn [fst snd].
        destruct (hard_failure_wait _ _) as [w |]; [| discriminate].
        unfold io_bind at 1.
        destruct (time_sleep_cases (os attempt) w) as [[_ ->] | [_ [e ->]]];
          cbn [fst snd]; [| discriminate].
        apply Hnext, Hok.
Qed.

(** X12. Whatever the server, the clock, the operating system and the
    settings, [get] never returns [None]: when it returns, the value is one
    of the responses to its first [max_retries] requests, and that response
    is a success (not 4xx or 5xx), hence not a rate-limited one. *)
Theorem get_returns_only_successes (http : GitHubHTTP) (server : nat -> Response)
    (clock : nat -> Z) (os : nat -> Z -> bool) (r : option Response) :
  snd (http_get http server clock os) = Ok r ->
  exists k, (k < max_retries http)%nat /\ r = Some (server k) /\
            ok (server k) = true /\ rate_limited (server k) = false.
Proof.
  intros H. unfold http_get in H.
  destruct (get_loop_returns_a_success http server clock os (max_retries http) 0 None r)
    as (k & Hk & Hr & Hok); [discriminate | exact H |].
  exists k. repeat split; [lia | assumption | assumption |].
  destruct (rate_limited (server k)) eqn:E; [| reflexivity].
  apply rate_limited_not_ok in E. congruence.
Qed.

Lemma get_returns_only_successes_witness :
  exists k, (k < max_retries default_http)%nat /\
            Some (Sample.page [] None) = Some (Sample.recovering k) /\
            ok (Sample.recovering k) = true /\ rate_limited (Sample.recovering k) = false.
Proof.
  apply (get_returns_only_successes default_http Sample.recovering Sample.at_noon
           Sample.willing).
  vm_compute. reflexivity.
Defined.

(** X13. When every one of the [max_retries] responses fails and every wait
    is computed and slept without an exception, the exception [get] raises
    is the HTTPError of the LAST response, raised after the sleep that
    follows it; with [max_retries = 0] no request is sent and the call
    raises UnboundLocalError, [resp] never having been bound. A wait is
    slept without an exception when its length lies between 0 and
    [sleep_max] seconds and the operating system grants it. *)
Theorem exhaustion_raises_for_the_last_response
    (http : GitHubHTTP) (server : nat -> Response) (clock : nat -> Z)
    (os : nat -> Z -> bool) :
  sleeps_fine http server clock os = true ->
  (forall i, (i < max_retries http)%nat -> ok (server i) = false) ->
  http_get http server clock os
  = (retry_trace http server clock 0 (max_retries http),
     match max_retries http with
     | O => Raise UnboundLocalError
     | S n => Raise (HTTPError (status_code (server n)))
     end).
Proof.
  intros Hsleep Hall. unfold http_get.
  rewrite (get_loop_all_failed http server clock os (max_retries http) 0 None).
  - f_equal. destruct (max_retries http) as [| n] eqn:E; [reflexivity |].
    cbn [exhausted Nat.add]. now rewrite (Hall n) by lia.
  - intros i Hi. split; [apply Hall; lia |].
    apply sleeps_fine_wait; [assumption | lia].
Qed.

Lemma exhaustion_raises_for_the_last_response_witness :
  http_get default_http Sample.throttled Sample.at_noon Sample.willing
  = (retry_trace default_http Sample.throttled Sample.at_noon 0 3,
     Raise (HTTPError (status_code (Sample.throttled 2)))).
Proof.
  apply (exhaustion_raises_for_the_last_response default_http Sample.throttled
           Sample.at_noon Sample.willing).
  - vm_compute. reflexivity.
  - intros i Hi. destruct i as [| [| [| i]]]; [reflexivity .. |]. simpl in Hi. lia.
Defined.

(** ** More on the Link header *)

Lemma split_parts_keep (q : ascii -> bool) (sep : ascii) (s : string) :
  Py.all_chars q s = true ->
  forall part, In part (Py.split sep s) -> Py.all_chars q part = true.
Proof.
  induction s as [| c s IH]; cbn [Py.split Py.all_chars].
  - intros _ part [<- | []]. reflexivity.
  - rewrite andb_true_iff. intros [Hc Hs] part.
    destruct (Ascii.eqb c sep).
    + intros [<- | Hin]; [reflexivity | now apply IH].
    + specialize (IH Hs). destruct (Py.split sep s) as [| w ws].
      * intros [<- | []]. simpl. now rewrite Hc.
      * intros [<- | Hin].
        -- simpl. rewrite Hc. apply IH. now left.
        -- apply IH. now right.
Qed.

Lemma scan_parts_without_semicolon (parts : list string) :
  (forall part, In part parts ->
     Py.all_chars (fun c => negb (Ascii.eqb c ";")) part = true) ->
  scan_parts parts = None.
Proof.
  induction parts as [| part parts IH]; [reflexivity |].
  intros H. cbn [scan_parts].
  rewrite (split_without_sep ";" part) by (apply H; now left).
  cbn [map]. apply IH. intros p Hp. apply H. now right.
Qed.

(** X14. Without a Link header, with an empty one, or with one that holds
    no semicolon, [parse_next_link] finds no next page: a segment
    [rel="next"] is only looked for after a semicolon. *)
Theorem parse_next_link_needs_a_semicolon (link_header : option string) :
  (forall h, link_header = Some h ->
     Py.all_chars (fun c => negb (Ascii.eqb c ";")) h = true) ->
  parse_next_link link_header = None.
Proof.
  intros H. destruct link_header as [h |]; [| reflexivity].
  unfold parse_next_link. destruct (Py.truthy (Some h)); [| reflexivity].
  apply scan_parts_without_semicolon, split_parts_keep, H. reflexivity.
Qed.

Lemma parse_next_link_needs_a_semicolon_witness :
  parse_next_link (Some "<https://api.github.com/repositories/1/pulls?page=2>, rel=next")
  = None.
Proof.
  apply parse_next_link_needs_a_semicolon. intros h [= <-]. reflexivity.
Defined.

(** X15. Parsing undoes rendering: on a Link header written as
    [<target>; rel="relation"] entries joined by a comma and a blank,
    [parse_next_link] returns the target of the first entry whose relation
    is [next], unchanged, and [None] when no entry has that relation. *)
Theorem parse_next_link_reads_a_rendered_header (es : list LinkEntry) :
  forallb entry_ok es = true ->
  parse_next_link (Some (render_link es))
  = match next_entry es with
    | Some e => Some (target e)
    | None => None
    end.
Proof.
  intros H. rewrite (parse_next_link_rendered es H).
  now destruct (next_entry es).
Qed.

Lemma parse_next_link_reads_a_rendered_header_witness :
  parse_next_link (Some (render_link Sample.links_of_page2))
  = match next_entry Sample.links_of_page2 with
    | Some e => Some (target e)
    | None => None
    end.
Proof.
  apply parse_next_link_reads_a_rendered_header. reflexivity.
Defined.

(** ** What any consumer of the paginator sees *)

Section AnyServer.
Variable fetch : request -> result Response.

(** The three ways one turn of the loop can end. *)
Lemma loop_turn_cases (url : option string) (params : Params) (idx : Z) :
  loop_turn fetch url params idx = ([], StopIteration, Finished) \/
  (exists rq e,
     req_params rq = (if idx =? 1 then Some params else None) /\
     (forall u, url = Some u -> req_url rq = u) /\
     loop_turn fetch url params idx = ([rq], Raised e, Finished)) \/
  (exists rq payload resp,
     req_params rq = (if idx =? 1 then Some params else None) /\
     (forall u, url = Some u -> req_url rq = u) /\
     fetch rq = Ok resp /\
     loop_turn fetch url params idx
     = ([rq], Yielded idx payload, Suspended params idx resp)).
Proof.
  unfold loop_turn. destruct url as [u |]; [| now left].
  destruct (Py.truthy (Some u)); [| now left].
  set (rq := {| req_url := u; req_params := if idx =? 1 then Some params else None |}).
  destruct (fetch rq) as [resp | e] eqn:Hf.
  - destruct (json resp) as [payload |].
    + right. right. exists rq, payload, resp.
      repeat split; try reflexivity; try assumption. now intros ? [= <-].
    + right. left. exists rq, JSONDecodeError.
      repeat split; try reflexivity. now intros ? [= <-].
  - right. left. exists rq, e. repeat split; try reflexivity. now intros ? [= <-].
Qed.

Lemma consume_suspended (fuel : nat) (params : Params) (i : Z) (resp : Response) :
  1 <= i ->
  let tr := fst (consume fetch fuel (Suspended params i resp)) in
  alternates tr = true /\
  (exists n, (n <= fuel)%nat /\ page_indices tr = count_from (i + 1) n) /\
  forallb (fun rq => match req_params rq with None => true | Some _ => false end)
          (fetched tr) = true.
Proof.
  revert i resp. induction fuel as [| fuel IH]; intros i resp Hi; cbn zeta.
  - cbn. split; [reflexivity |]. split; [exists 0%nat; split; [lia | reflexivity] | reflexivity].
  - cbn [consume next].
    destruct (loop_turn_cases (parse_next_link (link resp)) params (i + 1))
      as [-> | [(rq & e & Hp & _ & ->) | (rq & payload & resp' & Hp & _ & _ & ->)]].
    + cbn. split; [reflexivity |].
      split; [exists 0%nat; split; [lia | reflexivity] | reflexivity].
    + replace (i + 1 =? 1) with false in Hp by (symmetry; apply Z.eqb_neq; lia).
      cbn. rewrite Hp. split; [reflexivity |].
      split; [exists 0%nat; split; [lia | reflexivity] | reflexivity].
    + replace (i + 1 =? 1) with false in Hp by (symmetry; apply Z.eqb_neq; lia).
      destruct (IH (i + 1) resp' ltac:(lia)) as (Halt & (n & Hn & Hidx) & Hnone).
      destruct (consume fetch fuel (Suspended params (i + 1) resp')) as [tr fin].
      cbn [fst] in *. cbn. rewrite Hp, Halt, Hidx, Hnone.
      split; [reflexivity |]. split; [| reflexivity].
      exists (S n). split; [lia | reflexivity].
Qed.

End AnyServer.

(** X16. Whatever the server answers and however long the consumer
    iterates, the pages of [list_closed_pr_pages] come numbered 1, 2, 3, ...
    without a gap, each right after the one request that fetched it; the
    first request goes to the pulls collection with the query parameters
    and every later one carries none. *)
Theorem pages_are_numbered_from_one (fetch : request -> result Response)
    (owner repo : string) (per_page : Z) (fuel : nat) :
  let tr := fst (consume fetch fuel (list_closed_pr_pages owner repo per_page)) in
  alternates tr = true /\
  (exists n, (n <= fuel)%nat /\ page_indices tr = count_from 1 n) /\
  match fetched tr with
  | [] => True
  | first :: later =>
      first = {| req_url := pulls_url owner repo;
                 req_params := Some (closed_pr_params per_page) |} /\
      forallb (fun rq => match req_params rq with None => true | Some _ => false end)
              later = true
  end.
Proof.
  cbn zeta. unfold list_closed_pr_pages. destruct fuel as [| fuel].
  - cbn. split; [reflexivity |]. split; [exists 0%nat; split; [lia | reflexivity] | exact I].
  - cbn [consume next].
    destruct (loop_turn_cases fetch (Some (pulls_url owner repo))
                (closed_pr_params per_page) 1)
      as [-> | [(rq & e & Hp & Hu & ->) | (rq & payload & resp & Hp & Hu & _ & ->)]].
    + cbn. split; [reflexivity |].
      split; [exists 0%nat; split; [lia | reflexivity] | exact I].
    + cbn. split; [reflexivity |].
      split; [exists 0%nat; split; [lia | reflexivity] |].
      split; [| reflexivity]. destruct rq as [u p]. cbn in *.
      now rewrite Hp, (Hu _ eq_refl).
    + destruct (consume_suspended fetch fuel (closed_pr_params per_page) 1 resp ltac:(lia))
        as (Halt & (n & Hn & Hidx) & Hnone).
      destruct (consume fetch fuel (Suspended (closed_pr_params per_page) 1 resp))
        as [tr fin].
      cbn [fst] in *. cbn. rewrite Halt, Hidx.
      split; [reflexivity |]. split; [exists (S n); split; [lia | reflexivity] |].
      split; [| exact Hnone]. destruct rq as [u p]. cbn in *.
      now rewrite Hp, (Hu _ eq_refl).
Qed.

Section EndlessServer.
Variable fetch : request -> result Response.
Hypothesis always_next :
  forall rq, exists resp payload u,
    fetch rq = Ok resp /\ json resp = Some payload /\
    parse_next_link (link resp) = Some u /\ Py.truthy (Some u) = true.

Lemma consume_endless (fuel : nat) (params : Params) (i : Z) (resp : Response) :
  (exists u, parse_next_link (link resp) = Some u /\ Py.truthy (Some u) = true) ->
  snd (consume fetch fuel (Suspended params i resp)) = false /\
  page_indices (fst (consume fetch fuel (Suspended params i resp)))
  = count_from (i + 1) fuel.
Proof.
  revert i resp. induction fuel as [| fuel IH]; intros i resp (u & Hu & Htr).
  - split; reflexivity.
  - cbn [consume next]. rewrite Hu. unfold loop_turn. rewrite Htr.
    destruct (always_next {| req_url := u;
                             req_params := if i + 1 =? 1 then Some params else None |})
      as (resp' & payload & u' & -> & -> & Hu' & Htr').
    destruct (IH (i + 1) resp' (ex_intro _ u' (conj Hu' Htr'))) as [Hfin Hidx].
    destruct (consume fetch fuel (Suspended params (i + 1) resp')) as [tr fin].
    cbn [fst snd] in *. cbn. now rewrite Hidx.
Qed.

End EndlessServer.

(** X17. The paginator ends only when the server stops linking: against a
    server whose every response is a page with a next link, a consumer
    gets as many pages as it asks for and the generator never finishes. *)
Theorem paginator_never_stops_by_itself (fetch : request -> result Response)
    (owner repo : string) (per_page : Z) (fuel : nat) :
  (forall rq, exists resp payload u,
     fetch rq = Ok resp /\ json resp = Some payload /\
     parse_next_link (link resp) = Some u /\ Py.truthy (Some u) = true) ->
  snd (consume fetch fuel (list_closed_pr_pages owner repo per_page)) = false /\
  page_indices (fst (consume fetch fuel (list_closed_pr_pages owner repo per_page)))
  = count_from 1 fuel.
Proof.
  intros Hnext. unfold list_closed_pr_pages. destruct fuel as [| fuel].
  - split; reflexivity.
  - cbn [consume next]. unfold loop_turn.
    replace (Py.truthy (Some (pulls_url owner repo))) with true by reflexivity.
    destruct (Hnext {| req_url := pulls_url owner repo;
                       req_params := if 1 =? 1 then Some (closed_pr_params per_page)
                                     else None |})
      as (resp & payload & u & -> & -> & Hu & Htr).
    destruct (consume_endless fetch Hnext fuel (closed_pr_params per_page) 1 resp
                (ex_intro _ u (conj Hu Htr))) as [Hfin Hidx].
    destruct (consume fetch fuel (Suspended (closed_pr_params per_page) 1 resp))
      as [tr fin].
    cbn [fst snd] in *. cbn. now rewrite Hidx.
Qed.

Lemma paginator_never_stops_by_itself_witness :
  snd (consume (fun _ => Ok Sample.page1) 25 (list_closed_pr_pages "octo" "repo" 100))
  = false /\
  page_indices
    (fst (consume (fun _ => Ok Sample.page1) 25 (list_closed_pr_pages "octo" "repo" 100)))
  = count_from 1 25.
Proof.
  apply (paginator_never_stops_by_itself (fun _ => Ok Sample.page1)).
  intros rq. exists Sample.page1, [Sample.pr42], Sample.page2_url.
  repeat split; reflexivity.
Defined.

(** ** Writing and reading instants *)

(** X18. [_parse_iso] reads back what [_to_utc_iso] wrote: the instant, cut
    to the whole second (the format has no room for microseconds). This is
    the step by which [main] turns the normalised window into instants. *)
Theorem parse_iso_undoes_to_utc_iso (dt : Z) :
  year_1000 <= dt < year_10000 ->
  _parse_iso (D := Iso8601.datetime) (Some (_to_utc_iso dt))
  = Ok (Some (dt / 1000000 * 1000000)).
Proof.
  intros H. unfold _parse_iso.
  replace (Py.truthy (Some (_to_utc_iso dt))) with true.
  - change (@fromisoformat_utc Iso8601.datetime) with Iso8601.read.
    now rewrite read_to_utc_iso.
  - unfold _to_utc_iso. now destruct (civil_from_days _) as [[y m] d].
Qed.

Lemma parse_iso_undoes_to_utc_iso_witness :
  _parse_iso (D := Iso8601.datetime) (Some (_to_utc_iso 1736510400123456))
  = Ok (Some (1736510400123456 / 1000000 * 1000000)).
Proof.
  apply parse_iso_undoes_to_utc_iso. vm_compute. split; [discriminate | reflexivity].
Defined.

(** X19. [_to_utc_iso] tells seconds apart and nothing finer: two instants
    get the same string exactly when they lie in the same second. *)
Theorem to_utc_iso_separates_seconds (a b : Z) :
  year_1000 <= a < year_10000 ->
  year_1000 <= b < year_10000 ->
  (_to_utc_iso a = _to_utc_iso b <-> a / 1000000 = b / 1000000).
Proof.
  intros Ha Hb. split.
  - intros E. pose proof (read_to_utc_iso a Ha) as Ra.
    rewrite E, (read_to_utc_iso b Hb) in Ra. injection Ra as Ra. lia.
  - intros E. unfold _to_utc_iso, microseconds_per_second. now rewrite E.
Qed.

Lemma to_utc_iso_separates_seconds_witness :
  _to_utc_iso 1736510400123456 = _to_utc_iso 1736510400999999
  <-> 1736510400123456 / 1000000 = 1736510400999999 / 1000000.
Proof.
  apply to_utc_iso_separates_seconds; vm_compute; (split; [discriminate | reflexivity]).
Defined.

(** ** Bounds given as calendar dates *)

(** The year of the era is recovered from the day of the era. *)
Lemma year_of_era (yoe doy : Z) :
  0 <= yoe < 400 -> 0 <= doy <= 365 ->
  (doy = 365 -> (yoe + 1) mod 4 = 0 /\ ((yoe + 1) mod 100 <> 0 \/ yoe = 399)) ->
  0 <= yoe * 365 + yoe / 4 - yoe / 100 + doy < 146097 /\
  (yoe * 365 + yoe / 4 - yoe / 100 + doy
   - (yoe * 365 + yoe / 4 - yoe / 100 + doy) / 1460
   + (yoe * 365 + yoe / 4 - yoe / 100 + doy) / 36524
   - (yoe * 365 + yoe / 4 - yoe / 100 + doy) / 146096) / 365 = yoe.
Proof.
  intros Hyoe Hdoy Hleap. div_lia.
Qed.

(** The day of the March-based year of a calendar date, and back. *)
Lemma month_of_day_of_year (mp d : Z) :
  0 <= mp <= 11 ->
  1 <= d <= (if mp =? 11 then 29
             else if orb (orb (mp =? 1) (mp =? 3)) (orb (mp =? 6) (mp =? 8)) then 30
             else 31) ->
  let doy := (153 * mp + 2) / 5 + d - 1 in
  0 <= doy <= 365 /\ (5 * doy + 2) / 153 = mp /\ doy - (153 * mp + 2) / 5 + 1 = d
  /\ (doy = 365 -> mp = 11 /\ d = 29).
Proof.
  intros Hmp Hd. cbn zeta.
  assert (Hc : mp = 0 \/ mp = 1 \/ mp = 2 \/ mp = 3 \/ mp = 4 \/ mp = 5 \/ mp = 6
               \/ mp = 7 \/ mp = 8 \/ mp = 9 \/ mp = 10 \/ mp = 11) by lia.
  destruct Hc as [-> | [-> | [-> | [-> | [-> | [-> | [-> | [-> | [-> | [-> | [-> | ->]]]]]]]]]]];
    cbn [Z.eqb Pos.eqb orb] in Hd; div_lia.
Qed.

(** The era and the day of the era are the quotient and the remainder. *)
Lemma era_of_day (era doe : Z) :
  0 <= doe < 146097 ->
  (era * 146097 + doe) / 146097 = era /\ (era * 146097 + doe) mod 146097 = doe.
Proof.
  intros H. split.
  - rewrite Z.div_add_l by discriminate. rewrite (Z.div_small doe) by exact H.
    apply Z.add_0_r.
  - rewrite Z.add_comm, Z.mod_add by discriminate. apply Z.mod_small. exact H.
Qed.

(** A leap year, seen from the year of the era before it. *)
Lemma leap_year_of_era (y era yoe : Z) :
  0 <= yoe < 400 -> y = era * 400 + yoe + 1 -> Iso8601.is_leap y = true ->
  (yoe + 1) mod 4 = 0 /\ ((yoe + 1) mod 100 <> 0 \/ yoe = 399).
Proof.
  intros Hyoe Hy Hl. unfold Iso8601.is_leap in Hl.
  apply andb_true_iff in Hl. destruct Hl as [H4 Hl].
  apply Z.eqb_eq in H4. apply orb_true_iff in Hl.
  destruct Hl as [H100 | H400].
  - apply negb_true_iff in H100. apply Z.eqb_neq in H100.
    split; [div_lia |]. left. div_lia.
  - apply Z.eqb_eq in H400. split; [div_lia |]. right. div_lia.
Qed.

(** The month counted from March, and back. *)
Lemma march_based_month (m : Z) :
  1 <= m <= 12 ->
  let mp := if 2 <? m then m - 3 else m + 9 in
  0 <= mp <= 11 /\ (if mp <? 10 then mp + 3 else mp - 9) = m
  /\ (mp =? 11) = (m =? 2)
  /\ orb (orb (mp =? 1) (mp =? 3)) (orb (mp =? 6) (mp =? 8))
     = orb (orb (m =? 4) (m =? 6)) (orb (m =? 9) (m =? 11)).
Proof.
  intros Hm.
  assert (Hc : m = 1 \/ m = 2 \/ m = 3 \/ m = 4 \/ m = 5 \/ m = 6 \/ m = 7
               \/ m = 8 \/ m = 9 \/ m = 10 \/ m = 11 \/ m = 12) by lia.
  destruct Hc as [-> | [-> | [-> | [-> | [-> | [-> | [-> | [-> | [-> | [-> | [-> | ->]]]]]]]]]]];
    cbn; repeat split; discriminate.
Qed.

(** [civil_from_days] undoes the day count of a calendar date. *)
Lemma civil_of_days_from_civil (y m d : Z) :
  1 <= y <= 9999 -> 1 <= m <= 12 -> 1 <= d <= Iso8601.days_in_month y m ->
  civil_from_days (Iso8601.days_from_civil y m d) = (y, m, d).
Proof.
  intros Hy Hm Hd.
  destruct (march_based_month m Hm) as (Hmp & Hm' & H11 & H30).
  unfold Iso8601.days_from_civil, civil_from_days.
  remember (if 2 <? m then m - 3 else m + 9) as mp eqn:Emp.
  remember (if m <=? 2 then y - 1 else y) as y' eqn:Ey'.
  remember (y' / 400) as era eqn:Eera.
  remember (y' mod 400) as yoe eqn:Eyoe.
  assert (Hyoe : 0 <= yoe < 400).
  { rewrite Eyoe. apply Z.mod_pos_bound. reflexivity. }
  assert (Hy' : y' = era * 400 + yoe).
  { rewrite Eera, Eyoe, Z.mul_comm. apply Z.div_mod. discriminate. }
  assert (Hyy : y = yoe + era * 400 + (if m <=? 2 then 1 else 0)).
  { clear - Ey' Hy'. destruct (m <=? 2); lia. }
  assert (Hd' : 1 <= d <= (if mp =? 11 then 29
             else if orb (orb (mp =? 1) (mp =? 3)) (orb (mp =? 6) (mp =? 8)) then 30
             else 31)).
  { rewrite H11, H30. clear - Hd. unfold Iso8601.days_in_month in Hd.
    destruct (m =? 2); [destruct (Iso8601.is_leap y); lia | exact Hd]. }
  destruct (month_of_day_of_year mp d Hmp Hd') as (Hdoy & Hmpr & Hdr & H365).
  remember ((153 * mp + 2) / 5 + d - 1) as doy eqn:Edoy.
  assert (Hleap : doy = 365 -> (yoe + 1) mod 4 = 0 /\ ((yoe + 1) mod 100 <> 0 \/ yoe = 399)).
  { intros E. destruct (H365 E) as [E11 Ed].
    assert (Em : m = 2).
    { apply Z.eqb_eq. rewrite <- H11. apply Z.eqb_eq. exact E11. }
    apply (leap_year_of_era y era yoe Hyoe).
    - clear - Hyy Em. rewrite Em in Hyy. cbn in Hyy. lia.
    - clear - Hd Ed Em. unfold Iso8601.days_in_month in Hd. rewrite Em in Hd.
      cbn [Z.eqb Pos.eqb] in Hd. destruct (Iso8601.is_leap y); [reflexivity | lia]. }
  destruct (year_of_era yoe doy Hyoe Hdoy Hleap) as [Hdoe Hyr].
  remember (yoe * 365 + yoe / 4 - yoe / 100 + doy) as doe eqn:Edoe.
  replace (era * 146097 + doe - 719468 + 719468) with (era * 146097 + doe)
    by (clear; lia).
  destruct (era_of_day era doe Hdoe) as [Hq Hr].
  rewrite Hq, Hr, Hyr.
  replace (doe - (365 * yoe + yoe / 4 - yoe / 100)) with doy by (clear - Edoe; lia).
  rewrite Hmpr, Hdr, Hm', <- Hyy. reflexivity.
Qed.
(** X20. A bound given as a calendar date is normalised to the first instant
    of that day: for dates [YYYY-MM-DD] of the calendar,
    [normalize_window] returns each date followed by [T00:00:00Z], whatever
    the clock reads. In particular the [until] instant is the start of the
    [until] day. *)
Theorem date_bounds_become_midnight
    (y1 m1 d1 y2 m2 d2 : Z) (now : Z) :
  1000 <= y1 <= 9999 -> 1 <= m1 <= 12 -> 1 <= d1 <= Iso8601.days_in_month y1 m1 ->
  1000 <= y2 <= 9999 -> 1 <= m2 <= 12 -> 1 <= d2 <= Iso8601.days_in_month y2 m2 ->
  let since := pad4 y1 ++ "-" ++ pad2 m1 ++ "-" ++ pad2 d1 in
  let until := pad4 y2 ++ "-" ++ pad2 m2 ++ "-" ++ pad2 d2 in
  normalize_window (D := Iso8601.datetime) (Some since) (Some until) now
  = Ok (since ++ "T00:00:00Z", until ++ "T00:00:00Z").
Proof.
  assert (Hone : forall y m d,
    1000 <= y <= 9999 -> 1 <= m <= 12 -> 1 <= d <= Iso8601.days_in_month y m ->
    let s := pad4 y ++ "-" ++ pad2 m ++ "-" ++ pad2 d in
    Py.truthy (Some s) = true /\
    Iso8601.read s = Some (Iso8601.days_from_civil y m d * 86400 * 1000000) /\
    _to_utc_iso (Iso8601.days_from_civil y m d * 86400 * 1000000) = s ++ "T00:00:00Z").
  { intros y m d Hy Hm Hd. cbn zeta. split; [reflexivity |]. split.
    - unfold Iso8601.read.
      replace (pad4 y ++ "-" ++ pad2 m ++ "-" ++ pad2 d)
        with (pad4 y ++ String "-" (pad2 m ++ String "-" (pad2 d ++ "")))
        by reflexivity.
      rewrite (read_date_padded y m d "" Hy Hm Hd). cbn [String.eqb]. f_equal. lia.
    - unfold _to_utc_iso, microseconds_per_second, seconds_per_day.
      replace (Iso8601.days_from_civil y m d * 86400 * 1000000 / 1000000)
        with (Iso8601.days_from_civil y m d * 86400) by div_lia.
      replace (Iso8601.days_from_civil y m d * 86400 / 86400)
        with (Iso8601.days_from_civil y m d) by div_lia.
      replace ((Iso8601.days_from_civil y m d * 86400) mod 86400) with 0 by div_lia.
      rewrite civil_of_days_from_civil by (assumption || lia).
      unfold pad4, pad2. reflexivity. }
  intros Hy1 Hm1 Hd1 Hy2 Hm2 Hd2. cbn zeta.
  destruct (Hone y1 m1 d1 Hy1 Hm1 Hd1) as (Ht1 & Hr1 & Hw1).
  destruct (Hone y2 m2 d2 Hy2 Hm2 Hd2) as (Ht2 & Hr2 & Hw2).
  unfold normalize_window, parse_bound. rewrite Ht1, Ht2.
  change (@fromisoformat_wall Iso8601.datetime) with Iso8601.read.
  rewrite Hr1, Hr2. cbn [bind]. now rewrite Hw1, Hw2.
Qed.

Lemma date_bounds_become_midnight_witness :
  normalize_window (D := Iso8601.datetime) (Some "2024-02-29") (Some "2025-01-10")
    1736510400123456
  = Ok ("2024-02-29T00:00:00Z", "2025-01-10T00:00:00Z").
Proof.
  apply (date_bounds_become_midnight 2024 2 29 2025 1 10); vm_compute;
    split; discriminate.
Defined.

(** ** The default client *)

Lemma time_sleep_nonneg (granted : Z -> bool) (w : Z) :
  0 <= w ->
  snd (time_sleep granted w)
  = if sleep_max <? w then Raise OverflowError
    else if granted w then Ok tt else Raise OSError.
Proof.
  intros Hw. unfold time_sleep, lift, sleep_max.
  destruct (Z.ltb_spec w (Z.opp 9223372036)), (Z.ltb_spec 9223372036 w),
    (Z.ltb_spec w 0); try lia; cbn [orb snd]; [reflexivity |].
  now destruct (granted w).
Qed.

Lemma default_waits (a : nat) :
  (a < 3)%nat ->
  hard_failure_wait default_http a = Ok (Z.of_nat a + 1) /\
  fallback_wait default_http a = Ok (6 * (Z.of_nat a + 1)).
Proof.
  intros Ha. destruct a as [| [| [| a]]]; [split; vm_compute; reflexivity .. | lia].
Qed.

(** X21. The waits of the client with the settings [main] uses (three
    attempts, backoff 1.2), and the ways they end. After a hard failure in
    attempt 0, 1, 2 the client asks to sleep 1, 2, 3 seconds, and after a
    rate-limited response without a reset header that [isdigit] accepts 6,
    12, 18 seconds; these waits fail only if the operating system refuses
    the sleep. With a reset header that [isdigit] accepts the wait raises
    [ValueError] when the header is not made of decimal digits or has more
    than 4300 of them, [OverflowError] when the reset lies [sleep_max]
    seconds or more after the clock reading, and is otherwise the time
    left until one second after the reset, never negative. *)
Theorem default_client_wait_failures
    (server : nat -> Response) (clock : nat -> Z) (os : nat -> Z -> bool) (a : nat) :
  (a < 3)%nat ->
  let granted (w : Z) : result Z := if os a w then Ok w else Raise OSError in
  (rate_limited (server a) = false ->
   wait_outcome default_http server clock os a = granted (Z.of_nat a + 1)) /\
  (rate_limited (server a) = true ->
   (forall r, x_ratelimit_reset (server a) = Some r -> Py.isdigit r = false) ->
   wait_outcome default_http server clock os a = granted (6 * (Z.of_nat a + 1))) /\
  (rate_limited (server a) = true ->
   forall r, x_ratelimit_reset (server a) = Some r -> Py.isdigit r = true ->
   wait_outcome default_http server clock os a
   = if negb (andb (Py.all_chars Py.is_digit r)
                   (Nat.leb (String.length r) 4300))
     then Raise ValueError
     else if sleep_max <=? Py.int_of_digits r - clock a
     then Raise OverflowError
     else granted (Z.max 0 (Py.int_of_digits r - clock a + 1))).
Proof.
  intros Ha granted. destruct (default_waits a Ha) as [Hhard Hfall].
  assert (Hsleep : forall w, 0 <= w <= 18 ->
            (_ <- snd (time_sleep (os a) w) ;; Ok w) = granted w).
  { intros w Hw. rewrite time_sleep_nonneg by lia. unfold sleep_max, granted.
    replace (9223372036 <? w) with false by (symmetry; apply Z.ltb_ge; lia).
    now destruct (os a w). }
  unfold wait_outcome, wait_after. split; [| split].
  - intros ->. rewrite Hhard. cbn [bind]. apply Hsleep. lia.
  - intros -> Hreset. unfold rate_limit_wait.
    destruct (x_ratelimit_reset (server a)) as [r |] eqn:E.
    + rewrite (Hreset r eq_refl), andb_false_r, Hfall. cbn [bind]. apply Hsleep. lia.
    + rewrite Hfall. cbn [bind]. apply Hsleep. lia.
  - intros -> r -> Hdigit. unfold rate_limit_wait. rewrite Hdigit.
    replace (Py.truthy (Some r)) with true by (now destruct r).
    cbn [andb]. unfold Py.int, Py.int_max_str_digits.
    destruct (andb (Py.all_chars Py.is_digit r) (Nat.leb (String.length r) 4300));
      cbn [negb bind]; [| reflexivity].
    rewrite time_sleep_nonneg by lia. unfold sleep_max, granted.
    destruct (Z.ltb_spec 9223372036 (Z.max 0 (Py.int_of_digits r - clock a + 1))),
      (Z.leb_spec 9223372036 (Py.int_of_digits r - clock a)); try lia;
      cbn [bind]; [reflexivity |].
    now destruct (os a _).
Qed.

(** A reset far in the future and a reset written with a superscript two:
    the first request is answered by a rate-limited response, and the wait
    raises before anything is slept. *)
Lemma default_client_wait_failures_witness :
  wait_outcome default_http
    (fun _ => Sample.rate_limit_403 (Some "99999999999999999999"))
    Sample.at_noon Sample.willing 0
  = Raise OverflowError /\
  wait_outcome default_http
    (fun _ => Sample.rate_limit_403 (Some (String (ascii_of_nat 178) "")))
    Sample.at_noon Sample.willing 0
  = Raise ValueError.
Proof.
  split.
  - destruct (default_client_wait_failures
                (fun _ => Sample.rate_limit_403 (Some "99999999999999999999"))
                Sample.at_noon Sample.willing 0) as (_ & _ & H); [lia |].
    rewrite (H eq_refl "99999999999999999999" eq_refl eq_refl). reflexivity.
  - destruct (default_client_wait_failures
                (fun _ => Sample.rate_limit_403 (Some (String (ascii_of_nat 178) "")))
                Sample.at_noon Sample.willing 0) as (_ & _ & H); [lia |].
    rewrite (H eq_refl (String (ascii_of_nat 178) "") eq_refl eq_refl). reflexivity.
Defined.
